(** * OpenAPI AI Agents validation client: a shallow embedding

    Source: [examples/integrations/python/openapi_ai_agents_client.py].

    The client is a thin wrapper around an HTTP session.  Python values
    that travel through it (request bodies, decoded responses) are
    dynamically typed, so they are modelled by one inductive type
    [pyval]; dictionaries are finite maps with string keys.  Everything
    the module obtains from outside (the YAML and JSON decoders,
    [urljoin], the remote service, the file system, the process
    environment) is collected in the class [World]. *)

From Stdlib Require Import ZArith String Ascii List Bool Lia.
From Stdlib Require Import Floats.SpecFloat.
From Stdlib Require Import DecimalString DecimalPos DecimalZ.
From stdpp Require Import base gmap strings list option sorting.
Import ListNotations.

Open Scope string_scope.
Open Scope Z_scope.

(** ** Python values *)

(** A [float] is an IEEE 754 binary64 value, kept as [spec_float]: the
    client never computes with floats, it only passes them on. *)
#[warnings="-register-all"] Inductive pyval : Type :=
| PNone
| PBool (b : bool)
| PInt (z : Z)
| PFloat (f : spec_float)
| PStr (s : string)
| PList (l : list pyval)
| PDict (d : gmap string pyval).

(** ** Exceptions and results *)

(** What [requests.Response] exposes to the client: [json_body] is the
    outcome of [response.json()], [inl msg] when the body does not
    decode. *)
Record Response : Type := {
  status_code : Z;
  reason : string;
  url : string;
  text : string;
  json_body : string + pyval
}.

Inductive exn : Type :=
| ValueError (msg : string)
| KeyError (key : string)
| TypeError
| AttributeError (ty attr : string)
| OverflowError
| HTTPError (msg : string) (response : Response)
| RequestException (msg : string)
| JSONDecodeError (msg : string)
| YAMLError
| OSError
| SystemExit (code : Z).

Inductive result (A : Type) : Type :=
| Ok (a : A)
| Raised (e : exn).
Arguments Ok {A} a.
Arguments Raised {A} e.

#[global] Instance result_ret : MRet result := λ A a, Ok a.
#[global] Instance result_bind : MBind result := λ A B f r,
  match r with
  | Ok a => f a
  | Raised e => Raised e
  end.

(** [isinstance(e, ValueError)]: [json.JSONDecodeError] derives from
    [ValueError]. *)
Definition is_ValueError (e : exn) : bool :=
  match e with
  | ValueError _ | JSONDecodeError _ => true
  | _ => false
  end.

(** [isinstance(e, Exception)]: everything but [SystemExit]. *)
Definition is_Exception (e : exn) : bool :=
  match e with
  | SystemExit _ => false
  | _ => true
  end.

(** ** Builtins on Python values *)

Definition str_of_Z (z : Z) : string := NilZero.string_of_int (Z.to_int z).

Definition type_name (v : pyval) : string :=
  match v with
  | PNone => "NoneType"
  | PBool _ => "bool"
  | PInt _ => "int"
  | PFloat _ => "float"
  | PStr _ => "str"
  | PList _ => "list"
  | PDict _ => "dict"
  end.

(** [bool(v)] *)
Definition py_truthy (v : pyval) : bool :=
  match v with
  | PNone => false
  | PBool b => b
  | PInt z => negb (z =? 0)
  | PFloat (S754_zero _) => false
  | PFloat _ => true
  | PStr s => negb (String.eqb s "")
  | PList l => match l with [] => false | _ => true end
  | PDict d => match map_to_list d with [] => false | _ => true end
  end.

(** [v[key]] for a string key. *)
Definition py_getitem (v : pyval) (key : string) : result pyval :=
  match v with
  | PDict d =>
      match d !! key with
      | Some x => Ok x
      | None => Raised (KeyError key)
      end
  | _ => Raised TypeError
  end.

(** [v.get(key, default)] *)
Definition py_get (v : pyval) (key : string) (dflt : pyval) : result pyval :=
  match v with
  | PDict d => Ok (default dflt (d !! key))
  | _ => Raised (AttributeError (type_name v) "get")
  end.

(** [s.rstrip('/')] and [s.lstrip('/')] *)
Fixpoint rstrip_slash (s : string) : string :=
  match s with
  | EmptyString => EmptyString
  | String c s' =>
      match rstrip_slash s' with
      | EmptyString => if Ascii.eqb c "/" then EmptyString else String c EmptyString
      | r => String c r
      end
  end.

Fixpoint lstrip_slash (s : string) : string :=
  match s with
  | EmptyString => EmptyString
  | String c s' => if Ascii.eqb c "/" then lstrip_slash s' else s
  end.

(** [s.endswith(suffix)] *)
Definition endswith (s suffix : string) : bool :=
  let n := String.length s in
  let k := String.length suffix in
  (k <=? n)%nat && String.eqb (String.substring (n - k) k s) suffix.

(** ** Requests, the session and the outside world *)

(** One call of [session.request(method, url, timeout=..., json=...)]. *)
Record Request : Type := {
  req_method : string;
  req_url : string;
  req_timeout : Z;
  req_json : option pyval
}.

(** What one attempt on the wire gives: a response, or a failure of the
    connection (refused, DNS, timeout) with its message. *)
Inductive Outcome : Type :=
| Replied (r : Response)
| Failed (msg : string).

(** The trace of a run: every [session.request] call in order, with the
    number of attempts the transport made for it. *)
Definition Trace : Type := list (Request * nat).

Class World : Type := {
  (** [yaml.safe_load] on a text, [None] when it raises *)
  yaml_safe_load : string → option pyval;
  (** [json.load] on the text of a file, [inl msg] when it raises *)
  json_load : string → string + pyval;
  (** [urllib.parse.urljoin] *)
  urljoin : string → string → string;
  (** [str(v)] of a float, a list or a dict *)
  py_repr : pyval → string;
  (** the remote service: its answer to the n-th attempt of a request,
      given the calls made before *)
  wire : Trace → Request → nat → Outcome;
  (** the text of the [RetryError] that the session raises when the
      retries of a request are used up on a response *)
  retry_error : Request → Response → string;
  (** the text of a file, [None] when [open] raises *)
  read_file : string → option string;
  (** [os.getenv] *)
  getenv : string → option string
}.

(** The monad of the client's methods: they read and extend the trace,
    and return a value or raise. *)
Definition M (A : Type) : Type := Trace → result A * Trace.

#[global] Instance M_ret : MRet M := λ A a t, (Ok a, t).
#[global] Instance M_bind : MBind M := λ A B f m t,
  match m t with
  | (Ok a, t') => f a t'
  | (Raised e, t') => (Raised e, t')
  end.

Definition lift {A : Type} (r : result A) : M A := λ t, (r, t).
Definition raise {A : Type} (e : exn) : M A := lift (Raised e).

(** [try: m except ...: h e]; a handler that does not match re-raises. *)
Definition try_except {A : Type} (m : M A) (h : exn → M A) : M A := λ t,
  match m t with
  | (Ok a, t') => (Ok a, t')
  | (Raised e, t') => h e t'
  end.

(** ** Data model (the three dataclasses)

    A dataclass does not check its field annotations: each field holds
    whatever the response held. *)

Record ValidationResult : Type := {
  valid : pyval;
  certification_level : pyval;
  passed : pyval;
  warnings : pyval;
  errors : pyval
}.

Record EstimationResult : Type := {
  total_tokens : pyval;
  compressed_tokens : pyval;
  model : pyval;
  daily_cost : pyval;
  monthly_cost : pyval;
  annual_cost : pyval;
  annual_savings : pyval;
  savings_percentage : pyval;
  token_breakdown : pyval;
  optimizations : pyval
}.

Record ComplianceResult : Type := {
  cr_valid : pyval;
  authorization_readiness : pyval;
  framework_results : pyval;
  total_passed : pyval;
  total_warnings : pyval;
  total_errors : pyval
}.

(** ** The retrying transport *)

(** The arguments the constructor gives to [Retry]. *)
Record Retry : Type := {
  total : Z;
  backoff_factor : Z;
  status_forcelist : list Z;
  method_whitelist : list string
}.

(** The session: the headers set by the constructor and the adapter
    mounted for both ["http://"] and ["https://"]. *)
Record Session : Type := {
  headers : list (string * string);
  adapter : Retry
}.

Record OpenAPIAgentsClient : Type := {
  api_key : string;
  base_url : string;
  timeout : Z;
  session : Session
}.

Definition retry_strategy (max_retries : Z) : Retry :=
  {| total := max_retries;
     backoff_factor := 1;
     status_forcelist := [429; 500; 502; 503; 504];
     method_whitelist := ["HEAD"; "GET"; "PUT"; "DELETE"; "OPTIONS"; "TRACE"; "POST"] |}.

Definition __init__ (api_key base_url : string) (timeout max_retries : Z)
  : OpenAPIAgentsClient :=
  {| api_key := api_key;
     base_url := rstrip_slash base_url;
     timeout := timeout;
     session :=
       {| headers := [("Content-Type", "application/json");
                      ("X-API-Key", api_key);
                      ("User-Agent", "openapi-ai-agents-python-client/1.0.0")];
          adapter := retry_strategy max_retries |} |}.

Definition default_base_url : string := "https://api.openapi-ai-agents.org/v1".
Definition default_timeout : Z := 30.
Definition default_max_retries : Z := 3.

(** Modelled from the spec: the retry policy of the transport, which is
    library code.  A response is retried when its method is in the
    policy's method list and its status in the policy's status list; a
    failed connection is retried as well.  The waiting time between
    attempts is not modelled. *)
Definition is_retry (r : Retry) (method : string) (status : Z) : bool :=
  bool_decide (method ∈ method_whitelist r) && bool_decide (status ∈ status_forcelist r).

(** Modelled from the spec: the request loop of the transport under a
    retry policy; [budget] is the number of retries left.  It returns the
    number of attempts made and the outcome handed to the caller.  When
    the budget is used up on a response that the policy lists, the loop
    follows the policy that [__init__] builds: [raise_on_status] is left
    at its default, so the transport raises instead of handing the
    response back, and the session reports a [RetryError] whose text is
    [exhausted resp]. *)
Fixpoint urlopen (r : Retry) (method : string) (server : nat → Outcome)
    (exhausted : Response → string) (budget attempt : nat) : nat * Outcome :=
  match server attempt with
  | Replied resp =>
      if is_retry r method (status_code resp) then
        match budget with
        | O => (S attempt, Failed (exhausted resp))
        | S b => urlopen r method server exhausted b (S attempt)
        end
      else (S attempt, Replied resp)
  | Failed msg =>
      match budget with
      | O => (S attempt, Failed msg)
      | S b => urlopen r method server exhausted b (S attempt)
      end
  end.

(** [response.raise_for_status()], as the HTTP library defines it: an
    [HTTPError] for a status from 400 to 599 and nothing otherwise. *)
Definition raise_for_status (r : Response) : result unit :=
  if (400 <=? status_code r) && (status_code r <? 500) then
    Raised (HTTPError (str_of_Z (status_code r) ++ " Client Error: " ++ reason r
                       ++ " for url: " ++ url r) r)
  else if (500 <=? status_code r) && (status_code r <? 600) then
    Raised (HTTPError (str_of_Z (status_code r) ++ " Server Error: " ++ reason r
                       ++ " for url: " ++ url r) r)
  else Ok tt.

(** [response.json()] *)
Definition response_json (r : Response) : result pyval :=
  match json_body r with
  | inr v => Ok v
  | inl msg => Raised (JSONDecodeError msg)
  end.

(** ** The client *)

Section Client.
Context `{W : World}.

(** [str(v)], as an f-string formats a value *)
Definition py_str (v : pyval) : string :=
  match v with
  | PStr s => s
  | PNone => "None"
  | PBool true => "True"
  | PBool false => "False"
  | PInt z => str_of_Z z
  | _ => py_repr v
  end.

(** [self.session.request(...)]: the transport runs its retry loop
    against the service and the call is added to the trace.  The
    encoding of the body is not modelled: a body that the HTTP library
    cannot encode is outside this model. *)
Definition session_request (s : Session) (req : Request) : M Response := λ t,
  let '(n, out) := urlopen (adapter s) (req_method req) (wire t req)
                     (retry_error req) (Z.to_nat (total (adapter s))) 0 in
  (match out with
   | Replied r => Ok r
   | Failed msg => Raised (RequestException msg)
   end, (t ++ [(req, n)])%list).

(** The body of [except requests.exceptions.HTTPError as e], with
    [msg = str(e)] and [r = e.response]. *)
Definition handle_http_error (msg : string) (r : Response) : result pyval :=
  if status_code r =? 401 then
    Raised (ValueError "Invalid API key")
  else if status_code r =? 429 then
    Raised (ValueError "Rate limit exceeded. Please wait before retrying.")
  else if 400 <=? status_code r then
    match response_json r with
    | Ok error_data =>
        match py_get error_data "error" (PStr msg) with
        | Ok v => Raised (ValueError ("API Error: " ++ py_str v))
        | Raised (KeyError _) =>
            Raised (ValueError ("HTTP " ++ str_of_Z (status_code r) ++ ": " ++ text r))
        | Raised e' => Raised e'
        end
    | Raised (JSONDecodeError _) | Raised (KeyError _) =>
        Raised (ValueError ("HTTP " ++ str_of_Z (status_code r) ++ ": " ++ text r))
    | Raised e' => Raised e'
    end
  else Raised (HTTPError msg r).

(** A body that does not decode makes [response.json()] raise the HTTP
    library's [JSONDecodeError], which is a [RequestException] too and is
    caught by the second handler on the success path. *)
Definition _make_request (self : OpenAPIAgentsClient) (method endpoint : string)
    (json : option pyval) : M pyval :=
  let url := urljoin (base_url self ++ "/") (lstrip_slash endpoint) in
  try_except
    (response ← session_request (session self)
                  {| req_method := method; req_url := url;
                     req_timeout := timeout self; req_json := json |};
     _ ← lift (raise_for_status response);
     lift (response_json response))
    (λ e, match e with
          | HTTPError msg r => lift (handle_http_error msg r)
          | RequestException msg | JSONDecodeError msg =>
              raise (ValueError ("Request failed: " ++ msg))
          | _ => raise e
          end).

Definition health_check (self : OpenAPIAgentsClient) : M pyval :=
  _make_request self "GET" "/health" None.

Definition list_frameworks (self : OpenAPIAgentsClient) : M pyval :=
  response ← _make_request self "GET" "/frameworks" None;
  lift (py_getitem response "frameworks").

Definition list_protocols (self : OpenAPIAgentsClient) : M pyval :=
  response ← _make_request self "GET" "/protocols" None;
  lift (py_getitem response "protocols").

(** [if isinstance(x, str): x = yaml.safe_load(x)], the first statement of
    every method that takes a specification or a configuration. *)
Definition load_if_str (x : pyval) : M pyval :=
  match x with
  | PStr s =>
      match yaml_safe_load s with
      | Some p => mret p
      | None => raise YAMLError
      end
  | _ => mret x
  end.

Definition validate_openapi (self : OpenAPIAgentsClient) (specification : pyval)
  : M ValidationResult :=
  specification ← load_if_str specification;
  response ← _make_request self "POST" "/validate/openapi"
               (Some (PDict {[ "specification" := specification ]}));
  lift (v ← py_getitem response "valid";
        c ← py_getitem response "certification_level";
        p ← py_getitem response "passed";
        w ← py_getitem response "warnings";
        e ← py_getitem response "errors";
        mret {| valid := v; certification_level := c; passed := p;
                warnings := w; errors := e |}).

Definition validate_agent_config (self : OpenAPIAgentsClient) (configuration : pyval)
  : M ValidationResult :=
  configuration ← load_if_str configuration;
  response ← _make_request self "POST" "/validate/agent-config"
               (Some (PDict {[ "configuration" := configuration ]}));
  lift (v ← py_getitem response "valid";
        c ← py_getitem response "readiness_level";
        p ← py_getitem response "passed";
        w ← py_getitem response "warnings";
        e ← py_getitem response "errors";
        mret {| valid := v; certification_level := c; passed := p;
                warnings := w; errors := e |}).

(** [payload = {'configuration': configuration}] followed by
    [if extra: payload[key] = extra]. *)
Definition optional_payload (configuration : pyval) (key : string) (extra : pyval)
  : gmap string pyval :=
  let payload := {[ "configuration" := configuration ]} in
  if py_truthy extra then <[ key := extra ]> payload else payload.

Definition validate_compliance (self : OpenAPIAgentsClient)
    (configuration frameworks : pyval) : M ComplianceResult :=
  configuration ← load_if_str configuration;
  response ← _make_request self "POST" "/validate/compliance"
               (Some (PDict (optional_payload configuration "frameworks" frameworks)));
  lift (v ← py_getitem response "valid";
        a ← py_getitem response "authorization_readiness";
        f ← py_getitem response "framework_results";
        tp ← py_getitem response "summary" ≫= (λ s, py_getitem s "total_passed");
        tw ← py_getitem response "summary" ≫= (λ s, py_getitem s "total_warnings");
        te ← py_getitem response "summary" ≫= (λ s, py_getitem s "total_errors");
        mret {| cr_valid := v; authorization_readiness := a; framework_results := f;
                total_passed := tp; total_warnings := tw; total_errors := te |}).

Definition validate_protocols (self : OpenAPIAgentsClient)
    (configuration protocols : pyval) : M pyval :=
  configuration ← load_if_str configuration;
  _make_request self "POST" "/validate/protocols"
    (Some (PDict (optional_payload configuration "protocols" protocols))).

(** The defaults of [estimate_tokens]; [0.7] is the binary64 value
    6305039478318694 * 2^-53. *)
Definition default_model : pyval := PStr "gpt-4-turbo".
Definition default_requests_per_day : pyval := PInt 1000.
Definition default_compression_ratio : pyval :=
  PFloat (S754_finite false 6305039478318694 (-53)).

Definition estimate_body (specification model requests_per_day compression_ratio : pyval)
  : pyval :=
  PDict (list_to_map
    [("specification", specification);
     ("options", PDict (list_to_map
        [("model", model);
         ("requestsPerDay", requests_per_day);
         ("compressionRatio", compression_ratio)]))]).

Definition estimate_tokens (self : OpenAPIAgentsClient)
    (specification model requests_per_day compression_ratio : pyval)
  : M EstimationResult :=
  specification ← load_if_str specification;
  response ← _make_request self "POST" "/estimate/tokens"
               (Some (estimate_body specification model requests_per_day
                        compression_ratio));
  lift (tt ← py_getitem response "total_tokens";
        ct ← py_getitem response "compressed_tokens";
        m ← py_getitem response "cost_projections" ≫= (λ c, py_getitem c "model");
        dc ← py_getitem response "cost_projections" ≫= (λ c, py_getitem c "daily_cost");
        mc ← py_getitem response "cost_projections" ≫= (λ c, py_getitem c "monthly_cost");
        ac ← py_getitem response "cost_projections" ≫= (λ c, py_getitem c "annual_cost");
        sv ← py_getitem response "cost_projections" ≫= (λ c, py_getitem c "annual_savings");
        sp ← py_getitem response "cost_projections"
               ≫= (λ c, py_getitem c "savings_percentage");
        tb ← py_getitem response "token_breakdown";
        op ← py_getitem response "optimizations";
        mret {| total_tokens := tt; compressed_tokens := ct; model := m;
                daily_cost := dc; monthly_cost := mc; annual_cost := ac;
                annual_savings := sv; savings_percentage := sp;
                token_breakdown := tb; optimizations := op |}).

(** Binding [**estimation_options] to the keyword parameters of
    [estimate_tokens]: an unknown keyword is a [TypeError], a missing one
    takes its default. *)
Definition estimate_keywords : list string :=
  ["model"; "requests_per_day"; "compression_ratio"].

Definition bind_estimation_options (opts : gmap string pyval)
  : result (pyval * pyval * pyval) :=
  if forallb (λ k, bool_decide (k ∈ estimate_keywords)) (map_to_list opts).*1 then
    Ok (default default_model (opts !! "model"),
        default default_requests_per_day (opts !! "requests_per_day"),
        default default_compression_ratio (opts !! "compression_ratio"))
  else Raised TypeError.

(** A keyword named like one of the method's own parameters is refused
    when [validate_and_estimate] itself is called. *)
Definition validate_and_estimate (self : OpenAPIAgentsClient) (specification : pyval)
    (estimation_options : gmap string pyval)
  : M (ValidationResult * EstimationResult) :=
  if bool_decide (is_Some (estimation_options !! "specification"))
     || bool_decide (is_Some (estimation_options !! "self"))
  then raise TypeError
  else
    validation ← validate_openapi self specification;
    '(m, rpd, cr) ← lift (bind_estimation_options estimation_options);
    estimation ← estimate_tokens self specification m rpd cr;
    mret (validation, estimation).

(** ** The file loader *)

Definition load_specification (file_path : string) : result pyval :=
  match read_file file_path with
  | None => Raised OSError
  | Some f =>
      if endswith file_path ".yaml" || endswith file_path ".yml" then
        match yaml_safe_load f with
        | Some v => Ok v
        | None => Raised YAMLError
        end
      else
        match json_load f with
        | inr v => Ok v
        | inl msg => Raised (JSONDecodeError msg)
        end
  end.

(** ** The command line

    Only what decides the exit code is modelled: the text printed is
    left out, the operations applied to the values while printing are
    kept, since each of them can raise. *)

(** [v.upper()] *)
Definition py_upper (v : pyval) : result unit :=
  match v with
  | PStr _ => Ok tt
  | _ => Raised (AttributeError (type_name v) "upper")
  end.

(** [len(v)] *)
Definition py_len (v : pyval) : result nat :=
  match v with
  | PStr s => Ok (String.length s)
  | PList l => Ok (List.length l)
  | PDict d => Ok (size d)
  | _ => Raised TypeError
  end.

(** [v[:n]] *)
Definition py_slice (v : pyval) (n : nat) : result (list pyval) :=
  match v with
  | PStr s => Ok ((λ c, PStr (String c EmptyString)) <$> take n (list_ascii_of_string s))
  | PList l => Ok (take n l)
  | _ => Raised TypeError
  end.

(** [iter(v)] *)
Definition py_iter (v : pyval) : result (list pyval) :=
  match v with
  | PStr s => Ok ((λ c, PStr (String c EmptyString)) <$> list_ascii_of_string s)
  | PList l => Ok l
  | PDict d => Ok (PStr <$> (map_to_list d).*1)
  | _ => Raised TypeError
  end.

(** [format(v, ',')] *)
Definition format_thousands (v : pyval) : result unit :=
  match v with
  | PBool _ | PInt _ | PFloat _ => Ok tt
  | PStr _ => Raised (ValueError "Cannot specify ',' with 's'.")
  | _ => Raised TypeError
  end.

(** [format(v, '.2f')] and [format(v, '.1f')]: an integer is converted to
    a float first, which overflows from [2^1024 - 2^970] on. *)
Definition format_fixed (v : pyval) : result unit :=
  match v with
  | PBool _ | PFloat _ => Ok tt
  | PInt z => if Z.abs z <? 2 ^ 1024 - 2 ^ 970 then Ok tt else Raised OverflowError
  | PStr _ => Raised (ValueError "Unknown format code 'f' for object of type 'str'")
  | _ => Raised TypeError
  end.

(** [for x in l: body(x)] *)
Fixpoint for_each (l : list pyval) (body : pyval → result unit) : result unit :=
  match l with
  | [] => Ok tt
  | x :: l' => _ ← body x; for_each l' body
  end.

(** The [if validation.valid: ... else: ... sys.exit(1)] statement. *)
Definition cli_report_validation (validation : ValidationResult) : result unit :=
  if py_truthy (valid validation) then
    _ ← py_upper (certification_level validation);
    _ ← py_len (passed validation);
    if py_truthy (warnings validation) then
      _ ← py_len (warnings validation);
      _ ← py_slice (warnings validation) 3;
      Ok tt
    else Ok tt
  else
    _ ← py_iter (errors validation);
    Raised (SystemExit 1).

(** The statements that print the estimation. *)
Definition cli_report_estimation (estimation : EstimationResult) : result unit :=
  _ ← format_thousands (total_tokens estimation);
  _ ← format_thousands (compressed_tokens estimation);
  _ ← format_fixed (daily_cost estimation);
  _ ← format_fixed (annual_cost estimation);
  _ ← format_fixed (annual_savings estimation);
  _ ← format_fixed (savings_percentage estimation);
  if py_truthy (optimizations estimation) then
    _ ← py_len (optimizations estimation);
    opts ← py_slice (optimizations estimation) 2;
    for_each opts (λ opt, _ ← py_getitem opt "type";
                          _ ← py_getitem opt "potential_savings";
                          Ok tt)
  else Ok tt.

(** The body of the [try] statement. *)
Definition cli_body (spec_file api_key : string) : M unit :=
  let client := __init__ api_key default_base_url default_timeout default_max_retries in
  spec ← lift (load_specification spec_file);
  validation ← validate_openapi client spec;
  _ ← lift (cli_report_validation validation);
  estimation ← estimate_tokens client spec default_model default_requests_per_day
                 default_compression_ratio;
  lift (cli_report_estimation estimation).

(** [sys.argv[2] if len(sys.argv) > 2 else os.getenv('OPENAPI_AI_AGENTS_KEY')] *)
Definition cli_api_key (argv : list string) : option string :=
  if (2 <? length argv)%nat then argv !! 2%nat
  else getenv "OPENAPI_AI_AGENTS_KEY".

(** [not api_key] *)
Definition key_missing (api_key : option string) : bool :=
  match api_key with
  | None => true
  | Some k => String.eqb k ""
  end.

(** The script: its result is the exit code of the process.  An
    exception of class [Exception] is caught and turned into exit code
    1; [SystemExit] passes the handler and sets the code itself. *)
Definition main (argv : list string) : Trace → Z * Trace := λ t,
  if (length argv <? 2)%nat then (1, t)
  else
    let spec_file := default "" (argv !! 1%nat) in
    let api_key := cli_api_key argv in
    if key_missing api_key then (1, t)
    else
      match cli_body spec_file (default "" api_key) t with
      | (Ok _, t') => (0, t')
      | (Raised (SystemExit code), t') => (code, t')
      | (Raised _, t') => (1, t')
      end.

(** ** Vocabulary of the statements *)

(** The request [_make_request] builds. *)
Definition request_of (self : OpenAPIAgentsClient) (method endpoint : string)
    (json : option pyval) : Request :=
  {| req_method := method;
     req_url := urljoin (base_url self ++ "/") (lstrip_slash endpoint);
     req_timeout := timeout self;
     req_json := json |}.

(** What the transport does with a request after trace [t]: how many
    attempts it makes and which outcome it hands back. *)
Definition transport_run (self : OpenAPIAgentsClient) (req : Request) (t : Trace)
  : nat * Outcome :=
  urlopen (adapter (session self)) (req_method req) (wire t req) (retry_error req)
    (Z.to_nat (total (adapter (session self)))) 0.

(** The message of the [HTTPError] that [raise_for_status] raises. *)
Definition status_error_msg (r : Response) : string :=
  str_of_Z (status_code r)
  ++ (if status_code r <? 500 then " Client Error: " else " Server Error: ")
  ++ reason r ++ " for url: " ++ url r.

(** What [_make_request] makes of the outcome handed back. *)
Definition outcome_result (o : Outcome) : result pyval :=
  match o with
  | Failed msg => Raised (ValueError ("Request failed: " ++ msg))
  | Replied r =>
      if (400 <=? status_code r) && (status_code r <? 600) then
        handle_http_error (status_error_msg r) r
      else
        match json_body r with
        | inr v => Ok v
        | inl msg => Raised (ValueError ("Request failed: " ++ msg))
        end
  end.


(** What a method sends for an input [x]: [x] itself, or what
    [yaml.safe_load] makes of it when [x] is a string. *)
Definition resolved (x p : pyval) : Prop :=
  match x with
  | PStr s => yaml_safe_load s = Some p
  | _ => p = x
  end.

(** The canned response of the specification's example. *)
Definition canned_response : pyval :=
  PDict (list_to_map
    [("valid", PBool true);
     ("certification_level", PStr "gold");
     ("passed", PList [PStr "a"]);
     ("warnings", PList []);
     ("errors", PList [])]).


Definition is_HTTPError (res : result pyval) : bool :=
  match res with
  | Raised (HTTPError _ _) => true
  | _ => false
  end.

(** A result that is a value, or an exception of class [ValueError]. *)
Definition ok_or_ValueError (res : result pyval) : bool :=
  match res with
  | Ok _ => true
  | Raised e => is_ValueError e
  end.

(** A result that is a value or an exception of class [Exception]:
    anything but [SystemExit]. *)
Definition no_exit {A : Type} (r : result A) : bool :=
  match r with
  | Ok _ => true
  | Raised e => is_Exception e
  end.
End Client.

(** ** Concrete worlds, used to run the model *)

(** A decoder for the five literals that YAML and JSON share. *)
Definition literal_load (s : string) : option pyval :=
  if String.eqb s "null" then Some PNone
  else if String.eqb s "true" then Some (PBool true)
  else if String.eqb s "false" then Some (PBool false)
  else if String.eqb s "{}" then Some (PDict ∅)
  else if String.eqb s "[]" then Some (PList [])
  else None.

Definition literal_dump (v : pyval) : string :=
  match v with
  | PNone => "null"
  | PBool true => "true"
  | PBool false => "false"
  | PList [] => "[]"
  | _ => "{}"
  end.

(** A world whose service is [server], whose files are [files] and whose
    environment is [env]; its YAML decoder also reads ["~"], which is not
    JSON. *)
Definition world_of (server : Trace → Request → nat → Outcome)
    (files env : string → option string) : World :=
  {| yaml_safe_load := λ s, if String.eqb s "~" then Some PNone else literal_load s;
     json_load := λ s, match literal_load s with
                       | Some v => inr v
                       | None => inl "Expecting value"
                       end;
     urljoin := λ base rel, base ++ rel;
     py_repr := type_name;
     wire := server;
     retry_error := λ _ r, "too many " ++ str_of_Z (status_code r) ++ " error responses";
     read_file := files;
     getenv := env |}.

Definition no_files : string → option string := λ _, None.

(** A service that gives the same response to every attempt. *)
Definition always (r : Response) : Trace → Request → nat → Outcome :=
  λ _ _ _, Replied r.

Definition response_of (status : Z) (reason body : string) (json : string + pyval)
  : Response :=
  {| status_code := status; reason := reason; url := "https://example.test/v1/x";
     text := body; json_body := json |}.


Definition no_env : string → option string := λ _, None.

(** The client of the examples: default base URL, timeout and retries. *)
Definition demo_client : OpenAPIAgentsClient :=
  __init__ "secret" default_base_url default_timeout default_max_retries.

(** A service that answers every request with the canned response. *)
Definition canned_world : World :=
  world_of (always (response_of 200 "OK" "(canned)" (inr canned_response)))
    no_files no_env.

(** The response of a service that reports a readiness level. *)
Definition readiness_response : pyval :=
  PDict (list_to_map
    [("valid", PBool false);
     ("readiness_level", PStr "staging");
     ("passed", PList []);
     ("warnings", PList [PStr "w"]);
     ("errors", PList [PStr "e"])]).

Definition readiness_world : World :=
  world_of (always (response_of 200 "OK" "(readiness)" (inr readiness_response)))
    no_files no_env.

(** The call a default client makes for [endpoint] with [body]. *)
Definition demo_post (endpoint : string) (body : pyval) : Request :=
  {| req_method := "POST";
     req_url := "https://api.openapi-ai-agents.org/v1/" ++ endpoint;
     req_timeout := 30;
     req_json := Some body |}.





Definition json_list_body : Response :=
  response_of 400 "Bad Request" "[]" (inr (PList [])).


Definition rate_limited : Response :=
  response_of 429 "Too Many Requests" "slow down" (inl "Expecting value").

Definition world_replying (r : Response) : World :=
  world_of (always r) no_files no_env.

Definition unavailable : Response :=
  response_of 503 "Service Unavailable" "busy" (inl "Expecting value").

(** A request with a method the client itself never uses. *)
Definition patch_request : Request :=
  {| req_method := "PATCH";
     req_url := "https://api.openapi-ai-agents.org/v1/health";
     req_timeout := 30;
     req_json := None |}.

(** A response of the estimation endpoint; [12.5] is the binary64 value
    7036874417766400 * 2^-49. *)
Definition twelve_and_a_half : pyval := PFloat (S754_finite false 7036874417766400 (-49)).

Definition cost_projections_example : pyval :=
  PDict (list_to_map
    [("model", PStr "gpt-4-turbo");
     ("daily_cost", twelve_and_a_half);
     ("monthly_cost", PInt 375);
     ("annual_cost", PInt 4500);
     ("annual_savings", PInt 1350);
     ("savings_percentage", PInt 30)]).

Definition estimation_response : pyval :=
  PDict (list_to_map
    [("total_tokens", PInt 1200);
     ("compressed_tokens", PInt 840);
     ("cost_projections", cost_projections_example);
     ("token_breakdown", PDict ∅);
     ("optimizations", PList [])]).

Definition estimation_world : World :=
  world_of (always (response_of 200 "OK" "(estimation)" (inr estimation_response)))
    no_files no_env.

(** A service that answers by endpoint: the canned validation for
    [/validate/openapi], the estimation for everything else. *)
Definition full_service : Trace → Request → nat → Outcome :=
  λ _ req _,
    if endswith (req_url req) "/validate/openapi"
    then Replied (response_of 200 "OK" "(canned)" (inr canned_response))
    else Replied (response_of 200 "OK" "(estimation)" (inr estimation_response)).

Definition full_world : World := world_of full_service no_files no_env.

(** Two files with the same text, which only YAML can read. *)
Definition tilde_files : string → option string :=
  λ path, if String.eqb path "x.yaml" || String.eqb path "x.json" then Some "~" else None.

Definition tilde_world : World := world_of full_service tilde_files no_env.

(** A text serializer for the worlds above: [None] is written ["~"]. *)
Definition tilde_dump (v : pyval) : string :=
  match v with
  | PNone => "~"
  | _ => literal_dump v
  end.

(** A specification file and a key in the environment. *)
Definition spec_files : string → option string :=
  λ path, if String.eqb path "openapi.yaml" then Some "{}" else None.

Definition key_env : string → option string :=
  λ name, if String.eqb name "OPENAPI_AI_AGENTS_KEY" then Some "from-env" else None.

Definition cli_world : World := world_of full_service spec_files key_env.


(** The first key of [keys] that the mapping [d] lacks. *)
Definition first_missing (d : gmap string pyval) (keys : list string) : option string :=
  List.find (λ k, match d !! k with Some _ => false | None => true end) keys.

(** A service that cannot be reached. *)
Definition unreachable_world : World :=
  world_of (λ _ _ _, Failed "connection refused") no_files no_env.

(** A response without content that still decodes. *)
Definition null_body : Response := response_of 204 "No Content" "null" (inr PNone).

(** An error response whose body is a JSON string. *)
Definition json_string_body : Response :=
  response_of 404 "Not Found" "(a JSON string)" (inr (PStr "no such endpoint")).

(** A service that lists two frameworks. *)
Definition frameworks_response : Response :=
  response_of 200 "OK" "(frameworks)"
    (inr (PDict {[ "frameworks" := PList [PStr "iso-42001"; PStr "nist-ai-rmf"] ]})).

(** A validation response that lacks [passed]. *)
Definition incomplete_response : Response :=
  response_of 200 "OK" "(incomplete)"
    (inr (PDict (list_to_map
       [("valid", PBool true); ("certification_level", PStr "gold")]))).

(** A response of the compliance endpoint. *)
Definition compliance_summary : pyval :=
  PDict (list_to_map
    [("total_passed", PInt 7); ("total_warnings", PInt 2); ("total_errors", PInt 0)]).

Definition compliance_response : pyval :=
  PDict (list_to_map
    [("valid", PBool true);
     ("authorization_readiness", PStr "ready");
     ("framework_results", PDict ∅);
     ("summary", compliance_summary)]).

Definition compliance_world : World :=
  world_of (always (response_of 200 "OK" "(compliance)" (inr compliance_response)))
    no_files no_env.

(** A world with a key in the environment and a specification file that
    does not parse. *)
Definition broken_files : string → option string :=
  λ path, if String.eqb path "broken.yaml" then Some "{{" else None.

Definition broken_world : World := world_of full_service broken_files key_env.

(** An estimation response without the nested cost mapping. *)
Definition flat_estimation : pyval :=
  PDict (list_to_map
    [("total_tokens", PInt 1200); ("compressed_tokens", PInt 840);
     ("daily_cost", PInt 12)]).

Definition flat_estimation_world : World :=
  world_of (always (response_of 200 "OK" "(flat)" (inr flat_estimation)))
    no_files no_env.

(** A service that accepts the specification but reports its level as a
    number. *)
Definition numeric_level_world : World :=
  world_of (always (response_of 200 "OK" "(numeric level)"
                      (inr (PDict (list_to_map
                         [("valid", PBool true);
                          ("certification_level", PInt 3);
                          ("passed", PList []);
                          ("warnings", PList []);
                          ("errors", PList [])])))))
    spec_files key_env.

(** ** Simple objects and their text forms

    A simple object is a flat mapping from plain words to [None],
    booleans, integers or plain words.  [json_dumps] is the text that
    [json.dump] writes for it and [yaml_dump] the text that [yaml.dump]
    writes (block style, one [key: value] line per entry, keys sorted);
    [json_parse] and [yaml_parse] read back such texts the way the two
    formats define.  They are readers of a fragment: a text outside of
    it is [None] here, whatever the libraries make of it. *)

Definition dquote : ascii := "034"%char.
Definition newline : ascii := "010"%char.

Inductive scalar : Type :=
| SNull
| SBool (b : bool)
| SInt (z : Z)
| SWord (w : string).

Definition scalar_value (s : scalar) : pyval :=
  match s with
  | SNull => PNone
  | SBool b => PBool b
  | SInt z => PInt z
  | SWord w => PStr w
  end.

(** The Python value of an object given by its entries in insertion
    order. *)
Definition object_value (obj : list (string * scalar)) : pyval :=
  PDict (list_to_map (prod_map id scalar_value <$> obj)).

Definition is_lower (c : ascii) : bool :=
  (97 <=? nat_of_ascii c)%nat && (nat_of_ascii c <=? 122)%nat.

Definition is_digit (c : ascii) : bool :=
  (48 <=? nat_of_ascii c)%nat && (nat_of_ascii c <=? 57)%nat.

Definition is_token (c : ascii) : bool :=
  is_lower c || is_digit c || Ascii.eqb c "-".

Definition is_sign_or_digit (c : ascii) : bool :=
  is_digit c || Ascii.eqb c "-".

Fixpoint string_forall (p : ascii → bool) (s : string) : bool :=
  match s with
  | EmptyString => true
  | String c s' => p c && string_forall p s'
  end.

(** The lower-case words that YAML reads as a boolean or as null. *)
Definition reserved_words : list string :=
  ["yes"; "no"; "true"; "false"; "on"; "off"; "null"].

(** A word that both formats write and read as itself: lower-case
    letters only, not empty, not reserved, and short enough for a YAML
    simple key. *)
Definition plain_word (w : string) : bool :=
  negb (String.eqb w "")
  && string_forall is_lower w
  && (String.length w <? 128)%nat
  && negb (bool_decide (w ∈ reserved_words)).

(** The integers of a simple object fit in 64 bits. *)
Definition in_range (z : Z) : bool := (- 2 ^ 63 <=? z) && (z <? 2 ^ 63).

Definition simple_scalar (s : scalar) : bool :=
  match s with
  | SInt z => in_range z
  | SWord w => plain_word w
  | _ => true
  end.

Definition simple_entry (p : string * scalar) : bool :=
  plain_word p.1 && simple_scalar p.2.

(** Distinct plain keys, simple values. *)
Definition simple_object (obj : list (string * scalar)) : bool :=
  bool_decide (NoDup obj.*1) && forallb simple_entry obj.

(** *** Writing *)

Definition json_scalar (s : scalar) : string :=
  match s with
  | SNull => "null"
  | SBool true => "true"
  | SBool false => "false"
  | SInt z => str_of_Z z
  | SWord w => String dquote (w ++ String dquote "")
  end.

(** The members of a JSON object, followed by [rest]. *)
Fixpoint json_members_text (obj : list (string * scalar)) (rest : string) : string :=
  match obj with
  | [] => rest
  | (k, v) :: obj' =>
      String dquote (k ++ String dquote (": " ++ json_scalar v ++
        match obj' with
        | [] => rest
        | _ => ", " ++ json_members_text obj' rest
        end))
  end.

Definition json_dumps (obj : list (string * scalar)) : string :=
  "{" ++ json_members_text obj "}".

Definition yaml_scalar (s : scalar) : string :=
  match s with
  | SNull => "null"
  | SBool true => "true"
  | SBool false => "false"
  | SInt z => str_of_Z z
  | SWord w => w
  end.

Fixpoint yaml_lines (obj : list (string * scalar)) : string :=
  match obj with
  | [] => ""
  | (k, v) :: obj' => k ++ ": " ++ yaml_scalar v ++ String newline (yaml_lines obj')
  end.

(** The order in which [yaml.dump] writes the entries. *)
Definition key_le (p q : string * scalar) : Prop := Is_true (String.leb p.1 q.1).

#[global] Instance key_le_dec (p q : string * scalar) : Decision (key_le p q) :=
  Is_true_dec (String.leb p.1 q.1).

Definition yaml_dump (obj : list (string * scalar)) : string :=
  match obj with
  | [] => "{}" ++ String newline ""
  | _ => yaml_lines (merge_sort key_le obj)
  end.

(** *** Reading *)

(** The longest prefix of [s] whose characters satisfy [p], and what
    follows it. *)
Fixpoint span (p : ascii → bool) (s : string) : string * string :=
  match s with
  | EmptyString => (EmptyString, EmptyString)
  | String c s' =>
      if p c then let '(w, r) := span p s' in (String c w, r)
      else (EmptyString, s)
  end.

Fixpoint strip_prefix (pre s : string) : option string :=
  match pre with
  | EmptyString => Some s
  | String c pre' =>
      match s with
      | String c' s' => if Ascii.eqb c c' then strip_prefix pre' s' else None
      | EmptyString => None
      end
  end.

(** An integer of 64 bits in canonical decimal form: no sign but [-],
    no leading zero, no [-0]. *)
Definition parse_int (tok : string) : option Z :=
  match NilZero.int_of_string tok with
  | Some d =>
      if String.eqb (str_of_Z (Z.of_int d)) tok && in_range (Z.of_int d)
      then Some (Z.of_int d) else None
  | None => None
  end.

Definition json_token (tok : string) : option scalar :=
  if String.eqb tok "null" then Some SNull
  else if String.eqb tok "true" then Some (SBool true)
  else if String.eqb tok "false" then Some (SBool false)
  else SInt <$> parse_int tok.

Definition json_value (s : string) : option (scalar * string) :=
  match s with
  | EmptyString => None
  | String c s' =>
      if Ascii.eqb c dquote then
        let '(w, r) := span is_lower s' in
        (λ r', (SWord w, r')) <$> strip_prefix (String dquote "") r
      else
        let '(tok, r) := span is_token s in
        (λ v, (v, r)) <$> json_token tok
  end.

Fixpoint json_members (fuel : nat) (s : string) : option (list (string * scalar)) :=
  match fuel with
  | O => None
  | S fuel' =>
      s1 ← strip_prefix (String dquote "") s;
      let '(k, r) := span is_lower s1 in
      r1 ← strip_prefix (String dquote ": ") r;
      '(v, r2) ← json_value r1;
      if String.eqb r2 "}" then Some [(k, v)]
      else
        r3 ← strip_prefix ", " r2;
        obj ← json_members fuel' r3;
        Some ((k, v) :: obj)
  end.

Definition json_parse (s : string) : option pyval :=
  if String.eqb s "{}" then Some (PDict ∅)
  else
    s1 ← strip_prefix "{" s;
    obj ← json_members (String.length s) s1;
    if bool_decide (NoDup obj.*1) then Some (object_value obj) else None.

Definition yaml_token (tok : string) : option scalar :=
  if String.eqb tok "null" then Some SNull
  else if String.eqb tok "true" then Some (SBool true)
  else if String.eqb tok "false" then Some (SBool false)
  else
    match parse_int tok with
    | Some z => Some (SInt z)
    | None => if plain_word tok then Some (SWord tok) else None
    end.

Fixpoint yaml_entries (fuel : nat) (s : string) : option (list (string * scalar)) :=
  match fuel with
  | O => None
  | S fuel' =>
      let '(k, r) := span is_lower s in
      if plain_word k then
        r1 ← strip_prefix ": " r;
        let '(tok, r2) := span is_token r1 in
        v ← yaml_token tok;
        r3 ← strip_prefix (String newline "") r2;
        if String.eqb r3 "" then Some [(k, v)]
        else
          obj ← yaml_entries fuel' r3;
          Some ((k, v) :: obj)
      else None
  end.

Definition yaml_parse (s : string) : option pyval :=
  if String.eqb s ("{}" ++ String newline "") then Some (PDict ∅)
  else
    obj ← yaml_entries (String.length s) s;
    if bool_decide (NoDup obj.*1) then Some (object_value obj) else None.

(** A world whose decoders are the two readers. *)
Definition codec_world (files : string → option string) : World :=
  {| yaml_safe_load := yaml_parse;
     json_load := λ s, match json_parse s with
                       | Some v => inr v
                       | None => inl "Expecting value"
                       end;
     urljoin := λ base rel, base ++ rel;
     py_repr := type_name;
     wire := full_service;
     retry_error := λ _ r, "too many " ++ str_of_Z (status_code r) ++ " error responses";
     read_file := files;
     getenv := no_env |}.

(** An object, and the files it has been written to. *)
Definition example_object : list (string * scalar) :=
  [("title", SWord "demo"); ("version", SInt 3); ("draft", SBool false);
   ("owner", SNull); ("offset", SInt (-12))].

Definition example_files : string → option string :=
  λ path,
    if String.eqb path "x.yaml" then Some (yaml_dump example_object)
    else if String.eqb path "x.json" then Some (json_dumps example_object)
    else None.
(** * Properties *)

Section MakeRequest.
Context `{W : World}.

Lemma raise_for_status_spec (r : Response) :
  raise_for_status r =
    if (400 <=? status_code r) && (status_code r <? 600)
    then Raised (HTTPError (status_error_msg r) r) else Ok tt.
Proof.
  unfold raise_for_status, status_error_msg.
  destruct (400 <=? status_code r) eqn:E4;
    destruct (status_code r <? 500) eqn:E5;
    destruct (status_code r <? 600) eqn:E6; simpl; try reflexivity;
    try (destruct (500 <=? status_code r) eqn:E7; simpl; try reflexivity); lia.
Qed.

Lemma make_request_run (self : OpenAPIAgentsClient) (method endpoint : string)
    (json : option pyval) (t : Trace) :
  _make_request self method endpoint json t =
    (outcome_result (transport_run self (request_of self method endpoint json) t).2,
     (t ++ [(request_of self method endpoint json,
             (transport_run self (request_of self method endpoint json) t).1)])%list).
Proof.
  unfold _make_request, try_except, mbind, M_bind, session_request, transport_run.
  fold (request_of self method endpoint json). simpl.
  destruct (urlopen _ _ _ _ _ _) as [n [r | msg]]; simpl; [| reflexivity].
  unfold lift at 1. rewrite raise_for_status_spec.
  destruct ((400 <=? status_code r) && (status_code r <? 600)); simpl.
  - reflexivity.
  - unfold lift, response_json. destruct (json_body r); reflexivity.
Qed.

End MakeRequest.

Section Validate.
Context `{W : World}.

Lemma load_if_str_resolved (x p : pyval) (t : Trace) :
  resolved x p → load_if_str x t = (Ok p, t).
Proof.
  destruct x; simpl; intros H; subst; try reflexivity.
  rewrite H. reflexivity.
Qed.

(** C1. [validate_openapi] on a mapping [m] makes one call, a POST to
    [/validate/openapi] (joined onto the base URL) whose JSON body is
    exactly [{"specification": m}]; on a string [s] that YAML-parses to
    [p] the body is [{"specification": p}]. *)
Theorem validate_openapi_request (self : OpenAPIAgentsClient) (t : Trace) :
  (∀ m : gmap string pyval, ∃ n : nat,
     (validate_openapi self (PDict m) t).2 =
       (t ++ [({| req_method := "POST";
                  req_url := urljoin (base_url self ++ "/") "validate/openapi";
                  req_timeout := timeout self;
                  req_json := Some (PDict {[ "specification" := PDict m ]}) |}, n)])%list)
  ∧ (∀ (s : string) (p : pyval), yaml_safe_load s = Some p → ∃ n : nat,
     (validate_openapi self (PStr s) t).2 =
       (t ++ [({| req_method := "POST";
                  req_url := urljoin (base_url self ++ "/") "validate/openapi";
                  req_timeout := timeout self;
                  req_json := Some (PDict {[ "specification" := p ]}) |}, n)])%list).
Proof.
  split.
  - intros m. eexists. unfold validate_openapi, mbind, M_bind. simpl.
    rewrite make_request_run.
    destruct (outcome_result _); reflexivity.
  - intros s p Hp. eexists. unfold validate_openapi, mbind, M_bind. simpl.
    rewrite Hp. unfold mret, M_ret. rewrite make_request_run.
    destruct (outcome_result _); reflexivity.
Qed.

(** C2. From a successful JSON response [r], [validate_openapi] builds
    the record whose fields are [r['valid']], [r['certification_level']],
    [r['passed']], [r['warnings']] and [r['errors']]; the canned response
    gives [valid = True] and [certification_level = "gold"];
    [validate_agent_config] builds the same record with
    [certification_level] read from [r['readiness_level']]. *)
Theorem validation_result_fields (self : OpenAPIAgentsClient) :
  (∀ (spec p r v c ps w e : pyval) (t t' : Trace),
     resolved spec p →
     _make_request self "POST" "/validate/openapi"
       (Some (PDict {[ "specification" := p ]})) t = (Ok r, t') →
     py_getitem r "valid" = Ok v →
     py_getitem r "certification_level" = Ok c →
     py_getitem r "passed" = Ok ps →
     py_getitem r "warnings" = Ok w →
     py_getitem r "errors" = Ok e →
     validate_openapi self spec t =
       (Ok {| valid := v; certification_level := c; passed := ps;
              warnings := w; errors := e |}, t'))
  ∧ (∀ (spec p : pyval) (t t' : Trace),
     resolved spec p →
     _make_request self "POST" "/validate/openapi"
       (Some (PDict {[ "specification" := p ]})) t = (Ok canned_response, t') →
     validate_openapi self spec t =
       (Ok {| valid := PBool true; certification_level := PStr "gold";
              passed := PList [PStr "a"]; warnings := PList [];
              errors := PList [] |}, t'))
  ∧ (∀ (config p r v c ps w e : pyval) (t t' : Trace),
     resolved config p →
     _make_request self "POST" "/validate/agent-config"
       (Some (PDict {[ "configuration" := p ]})) t = (Ok r, t') →
     py_getitem r "valid" = Ok v →
     py_getitem r "readiness_level" = Ok c →
     py_getitem r "passed" = Ok ps →
     py_getitem r "warnings" = Ok w →
     py_getitem r "errors" = Ok e →
     validate_agent_config self config t =
       (Ok {| valid := v; certification_level := c; passed := ps;
              warnings := w; errors := e |}, t')).
Proof.
  assert (Hopen : ∀ (spec p r v c ps w e : pyval) (t t' : Trace),
     resolved spec p →
     _make_request self "POST" "/validate/openapi"
       (Some (PDict {[ "specification" := p ]})) t = (Ok r, t') →
     py_getitem r "valid" = Ok v →
     py_getitem r "certification_level" = Ok c →
     py_getitem r "passed" = Ok ps →
     py_getitem r "warnings" = Ok w →
     py_getitem r "errors" = Ok e →
     validate_openapi self spec t =
       (Ok {| valid := v; certification_level := c; passed := ps;
              warnings := w; errors := e |}, t')).
  { intros spec p r v c ps w e t t' Hres Hreq Hv Hc Hp Hw He.
    unfold validate_openapi, mbind at 1 2, M_bind.
    rewrite (load_if_str_resolved _ _ _ Hres), Hreq.
    unfold lift. rewrite Hv, Hc, Hp, Hw, He. reflexivity. }
  split; [exact Hopen |]. split.
  - intros spec p t t' Hres Hreq.
    apply (Hopen spec p canned_response); try assumption; reflexivity.
  - intros config p r v c ps w e t t' Hres Hreq Hv Hc Hp Hw He.
    unfold validate_agent_config, mbind at 1 2, M_bind.
    rewrite (load_if_str_resolved _ _ _ Hres), Hreq.
    unfold lift. rewrite Hv, Hc, Hp, Hw, He. reflexivity.
Qed.

End Validate.

Lemma validate_openapi_request_witness :
  ∃ n : nat,
    (@validate_openapi canned_world demo_client (PStr "{}") []).2 =
      ([] ++ [({| req_method := "POST";
                  req_url := @urljoin canned_world (base_url demo_client ++ "/")
                               "validate/openapi";
                  req_timeout := timeout demo_client;
                  req_json := Some (PDict {[ "specification" := PDict ∅ ]}) |}, n)])%list.
Proof.
  destruct (@validate_openapi_request canned_world demo_client []) as [_ H].
  apply (H "{}" (PDict ∅)). reflexivity.
Defined.

Lemma validation_result_fields_witness :
  @validate_openapi canned_world demo_client (PDict ∅) [] =
    (Ok {| valid := PBool true; certification_level := PStr "gold";
           passed := PList [PStr "a"]; warnings := PList [];
           errors := PList [] |},
     [(demo_post "validate/openapi" (PDict {[ "specification" := PDict ∅ ]}), 1%nat)])
  ∧ @validate_openapi canned_world demo_client (PStr "[]") [] =
    (Ok {| valid := PBool true; certification_level := PStr "gold";
           passed := PList [PStr "a"]; warnings := PList [];
           errors := PList [] |},
     [(demo_post "validate/openapi" (PDict {[ "specification" := PList [] ]}), 1%nat)])
  ∧ @validate_agent_config readiness_world demo_client (PDict ∅) [] =
    (Ok {| valid := PBool false; certification_level := PStr "staging";
           passed := PList []; warnings := PList [PStr "w"];
           errors := PList [PStr "e"] |},
     [(demo_post "validate/agent-config" (PDict {[ "configuration" := PDict ∅ ]}), 1%nat)]).
Proof.
  split; [| split].
  - destruct (@validation_result_fields canned_world demo_client) as [H _].
    apply (H (PDict ∅) (PDict ∅) canned_response); reflexivity.
  - destruct (@validation_result_fields canned_world demo_client) as [_ [H _]].
    apply (H (PStr "[]") (PList [])); reflexivity.
  - destruct (@validation_result_fields readiness_world demo_client) as [_ [_ H]].
    apply (H (PDict ∅) (PDict ∅) readiness_response); reflexivity.
Defined.

(** ** Error classification *)

Section Errors.
Context `{W : World}.


Lemma handle_http_error_429 (msg : string) (r : Response) :
  status_code r = 429 →
  handle_http_error msg r =
    Raised (ValueError "Rate limit exceeded. Please wait before retrying.").
Proof. intros H. unfold handle_http_error. rewrite H. reflexivity. Qed.

Lemma handle_http_error_other (msg : string) (r : Response) :
  400 ≤ status_code r → status_code r ≠ 401 → status_code r ≠ 429 →
  handle_http_error msg r =
    match json_body r with
    | inr error_data =>
        match py_get error_data "error" (PStr msg) with
        | Ok v => Raised (ValueError ("API Error: " ++ py_str v))
        | Raised e => Raised e
        end
    | inl _ =>
        Raised (ValueError ("HTTP " ++ str_of_Z (status_code r) ++ ": " ++ text r))
    end.
Proof.
  intros H4 H401 H429. unfold handle_http_error, response_json.
  destruct (Z.eqb_spec (status_code r) 401); [contradiction |].
  destruct (Z.eqb_spec (status_code r) 429); [contradiction |].
  destruct (Z.leb_spec 400 (status_code r)); [| lia].
  destruct (json_body r) as [m | v]; [reflexivity |].
  destruct v; reflexivity.
Qed.

Lemma outcome_result_error (r : Response) :
  400 ≤ status_code r < 600 →
  outcome_result (Replied r) = handle_http_error (status_error_msg r) r.
Proof.
  intros [H4 H6]. unfold outcome_result.
  destruct (Z.leb_spec 400 (status_code r)); [| lia].
  destruct (Z.ltb_spec (status_code r) 600); [| lia]. reflexivity.
Qed.


Lemma handle_http_error_not_HTTPError (msg : string) (r : Response) :
  400 ≤ status_code r → is_HTTPError (handle_http_error msg r) = false.
Proof.
  intros H4. unfold handle_http_error, response_json.
  destruct (status_code r =? 401); [reflexivity |].
  destruct (status_code r =? 429); [reflexivity |].
  destruct (Z.leb_spec 400 (status_code r)); [| lia].
  destruct (json_body r) as [m | v]; [reflexivity |].
  destruct v; reflexivity.
Qed.

End Errors.



(** C10.  The re-raise branch of the [HTTPError] handler is never taken:
    [_make_request] never lets an [HTTPError] out.  Its failures are
    still not all [ValueError]s: a 400 response whose body is the JSON
    list [[]] makes [error_data.get] raise an [AttributeError], which the
    inner handler does not catch. *)
Theorem make_request_failure_classes :
  (∀ (W : World) (self : OpenAPIAgentsClient) (method endpoint : string)
     (json : option pyval) (t : Trace),
     is_HTTPError (_make_request self method endpoint json t).1 = false)
  ∧ @_make_request (world_replying json_list_body) demo_client "POST" "/validate/openapi"
      (Some (PDict {[ "specification" := PDict ∅ ]})) [] =
      (Raised (AttributeError "list" "get"),
       [(demo_post "validate/openapi" (PDict {[ "specification" := PDict ∅ ]}), 1%nat)])
  ∧ ok_or_ValueError
      (@_make_request (world_replying json_list_body) demo_client "POST"
         "/validate/openapi" (Some (PDict {[ "specification" := PDict ∅ ]})) []).1 = false.
Proof.
  split; [| split; reflexivity].
  intros W self method endpoint json t. rewrite make_request_run. simpl.
  destruct (transport_run _ _ _).2 as [r | msg]; [| reflexivity].
  unfold outcome_result.
  destruct ((400 <=? status_code r) && (status_code r <? 600)) eqn:E.
  - apply handle_http_error_not_HTTPError.
    apply andb_true_iff in E as [E _]. lia.
  - destruct (json_body r); reflexivity.
Qed.

(** ** The retry policy *)

Lemma urlopen_attempts_le (r : Retry) (method : string) (server : nat → Outcome)
    (exhausted : Response → string) (budget attempt : nat) :
  ((urlopen r method server exhausted budget attempt).1 ≤ attempt + 1 + budget)%nat.
Proof.
  revert attempt. induction budget as [| b IH]; intros attempt; simpl.
  - destruct (server attempt) as [resp | msg]; [destruct (is_retry _ _ _) |]; simpl; lia.
  - destruct (server attempt) as [resp | msg]; [destruct (is_retry _ _ _) |]; simpl;
      try lia; specialize (IH (S attempt)); lia.
Qed.

Lemma urlopen_all_retried (r : Retry) (method : string) (server : nat → Outcome)
    (exhausted : Response → string) (budget attempt : nat) :
  (∀ n, ∃ resp, server n = Replied resp ∧ is_retry r method (status_code resp) = true) →
  ∃ resp, server (attempt + budget)%nat = Replied resp
          ∧ urlopen r method server exhausted budget attempt =
              ((attempt + 1 + budget)%nat, Failed (exhausted resp)).
Proof.
  intros Hall. revert attempt. induction budget as [| b IH]; intros attempt; simpl.
  - destruct (Hall attempt) as (resp & Hs & Hr). exists resp.
    replace (attempt + 0)%nat with attempt by lia. rewrite Hs, Hr.
    split; [reflexivity |]. f_equal. lia.
  - destruct (Hall attempt) as (resp & Hs & Hr). rewrite Hs, Hr.
    destruct (IH (S attempt)) as (resp' & Hs' & Hu). exists resp'.
    replace (attempt + S b)%nat with (S attempt + b)%nat by lia.
    split; [exact Hs' |]. rewrite Hu. f_equal. lia.
Qed.

Lemma urlopen_not_retried (r : Retry) (method : string) (server : nat → Outcome)
    (exhausted : Response → string) (budget : nat) (resp : Response) :
  server 0%nat = Replied resp → is_retry r method (status_code resp) = false →
  urlopen r method server exhausted budget 0 = (1%nat, Replied resp).
Proof. intros Hs Hr. destruct budget; simpl; rewrite Hs, Hr; reflexivity. Qed.

Section Retries.
Context `{W : World}.

(** C5, as the code has it.  Whatever [max_retries] the constructor is
    given, the transport retries a response exactly when its status is
    429, 500, 502, 503 or 504 and its method is HEAD, GET, PUT, DELETE,
    OPTIONS, TRACE or POST (the client itself only issues GET and POST);
    it never makes more than [max_retries] retries; a service that keeps
    answering such a request with 503 is tried [1 + max_retries] times
    and then [_make_request] raises; a response with another status is
    handed back after one attempt. *)
Theorem retry_configuration (api_key base_url : string) (timeout max_retries : Z) :
  let self := __init__ api_key base_url timeout max_retries in
  (∀ (method : string) (status : Z),
     is_retry (adapter (session self)) method status = true ↔
       method ∈ ["HEAD"; "GET"; "PUT"; "DELETE"; "OPTIONS"; "TRACE"; "POST"]
       ∧ status ∈ [429; 500; 502; 503; 504])
  ∧ (∀ (req : Request) (t : Trace),
       ((transport_run self req t).1 ≤ 1 + Z.to_nat max_retries)%nat)
  ∧ (∀ (method endpoint : string) (json : option pyval) (t : Trace) (r : Response),
       method ∈ ["HEAD"; "GET"; "PUT"; "DELETE"; "OPTIONS"; "TRACE"; "POST"] →
       status_code r = 503 →
       (∀ n, wire t (request_of self method endpoint json) n = Replied r) →
       ∃ e, _make_request self method endpoint json t =
              (Raised e, (t ++ [(request_of self method endpoint json,
                                 (1 + Z.to_nat max_retries)%nat)])%list))
  ∧ (∀ (req : Request) (t : Trace) (r : Response),
       wire t req 0%nat = Replied r →
       status_code r ∉ [429; 500; 502; 503; 504] →
       transport_run self req t = (1%nat, Replied r)).
Proof.
  intros self.
  assert (Hretry : ∀ (method : string) (status : Z),
     is_retry (adapter (session self)) method status = true ↔
       method ∈ ["HEAD"; "GET"; "PUT"; "DELETE"; "OPTIONS"; "TRACE"; "POST"]
       ∧ status ∈ [429; 500; 502; 503; 504]).
  { intros method status. unfold is_retry. simpl.
    rewrite andb_true_iff, !bool_decide_eq_true. reflexivity. }
  split; [exact Hretry |]. split; [| split].
  - intros req t. unfold transport_run. simpl.
    pose proof (urlopen_attempts_le (retry_strategy max_retries) (req_method req)
                  (wire t req) (retry_error req) (Z.to_nat max_retries) 0). lia.
  - intros method endpoint json t r Hm Hs Hall.
    rewrite make_request_run. unfold transport_run. simpl.
    destruct (urlopen_all_retried (retry_strategy max_retries) method
                (wire t (request_of self method endpoint json))
                (retry_error (request_of self method endpoint json))
                (Z.to_nat max_retries) 0) as (resp & _ & Hu).
    + intros n. exists r. split; [apply Hall |].
      apply Hretry. split; [exact Hm |]. rewrite Hs.
      repeat constructor.
    + rewrite Hu. simpl. eexists. reflexivity.
  - intros req t r H0 Hst. unfold transport_run. simpl.
    apply urlopen_not_retried; [exact H0 |].
    destruct (is_retry _ _ _) eqn:E; [| reflexivity].
    apply Hretry in E as [_ E]. contradiction.
Qed.

End Retries.

Lemma retry_configuration_witness :
  ∃ e, @_make_request (world_replying unavailable) demo_client "POST" "/validate/openapi"
         None [] =
         (Raised e,
          ([] ++ [(@request_of (world_replying unavailable) demo_client "POST"
                     "/validate/openapi" None, (1 + Z.to_nat 3)%nat)])%list).
Proof.
  destruct (@retry_configuration (world_replying unavailable) "secret" default_base_url
              default_timeout 3) as (_ & _ & H & _).
  apply (H "POST" "/validate/openapi" None [] unavailable).
  - repeat constructor.
  - reflexivity.
  - intros n. reflexivity.
Defined.

(** C5 as worded fails for the methods outside the configured list: a
    PATCH request answered with 503 is not retried at all. *)
Lemma retry_all_methods_counterexample :
  is_retry (adapter (session demo_client)) "PATCH" 503 = false
  ∧ @transport_run (world_replying unavailable) demo_client patch_request [] =
      (1%nat, Replied unavailable).
Proof. split; reflexivity. Qed.

(** ** Optional lists and the estimation endpoint *)

Section Payloads.
Context `{W : World}.

(** C9.  For [validate_compliance] and [validate_protocols] an empty
    list for the optional parameter gives the same run as [None]: the
    request payload is [{"configuration": ...}] in both cases, without
    the optional field. *)
Theorem empty_list_same_as_none (self : OpenAPIAgentsClient) (config : pyval) (t : Trace) :
  validate_compliance self config (PList []) t = validate_compliance self config PNone t
  ∧ validate_protocols self config (PList []) t = validate_protocols self config PNone t
  ∧ (∀ p : pyval, resolved config p →
       (∃ n : nat,
          (validate_compliance self config (PList []) t).2 =
            (t ++ [({| req_method := "POST";
                       req_url := urljoin (base_url self ++ "/") "validate/compliance";
                       req_timeout := timeout self;
                       req_json := Some (PDict {[ "configuration" := p ]}) |}, n)])%list)
       ∧ (∃ n : nat,
          (validate_protocols self config (PList []) t).2 =
            (t ++ [({| req_method := "POST";
                       req_url := urljoin (base_url self ++ "/") "validate/protocols";
                       req_timeout := timeout self;
                       req_json := Some (PDict {[ "configuration" := p ]}) |}, n)])%list)
       ∧ ({[ "configuration" := p ]} : gmap string pyval) !! "frameworks" = None
       ∧ ({[ "configuration" := p ]} : gmap string pyval) !! "protocols" = None).
Proof.
  split; [reflexivity |]. split; [reflexivity |].
  intros p Hp. split; [| split; [| split; reflexivity]].
  - eexists. unfold validate_compliance, mbind at 1 2, M_bind.
    rewrite (load_if_str_resolved _ _ _ Hp). rewrite make_request_run.
    destruct (outcome_result _); reflexivity.
  - eexists. unfold validate_protocols, mbind, M_bind.
    rewrite (load_if_str_resolved _ _ _ Hp). rewrite make_request_run.
    reflexivity.
Qed.

(** C4.  [estimate_tokens] sends exactly
    [{"specification": spec, "options": {"model": model, "requestsPerDay":
    requests_per_day, "compressionRatio": compression_ratio}}] to
    [/estimate/tokens], and from a successful response [r] it builds the
    result whose [daily_cost], [monthly_cost], [annual_cost],
    [annual_savings] and [savings_percentage] are the entries of the
    nested mapping [r['cost_projections']]. *)
Theorem estimate_tokens_contract (self : OpenAPIAgentsClient)
    (spec p model rpd cr : pyval) (t : Trace) :
  resolved spec p →
  (∃ n : nat,
     (estimate_tokens self spec model rpd cr t).2 =
       (t ++ [({| req_method := "POST";
                  req_url := urljoin (base_url self ++ "/") "estimate/tokens";
                  req_timeout := timeout self;
                  req_json := Some (PDict (list_to_map
                    [("specification", p);
                     ("options", PDict (list_to_map
                        [("model", model);
                         ("requestsPerDay", rpd);
                         ("compressionRatio", cr)]))])) |}, n)])%list)
  ∧ (∀ (r cp tt ct m dc mc ac sv sp tb op : pyval) (t' : Trace),
       _make_request self "POST" "/estimate/tokens"
         (Some (estimate_body p model rpd cr)) t = (Ok r, t') →
       py_getitem r "total_tokens" = Ok tt →
       py_getitem r "compressed_tokens" = Ok ct →
       py_getitem r "cost_projections" = Ok cp →
       py_getitem cp "model" = Ok m →
       py_getitem cp "daily_cost" = Ok dc →
       py_getitem cp "monthly_cost" = Ok mc →
       py_getitem cp "annual_cost" = Ok ac →
       py_getitem cp "annual_savings" = Ok sv →
       py_getitem cp "savings_percentage" = Ok sp →
       py_getitem r "token_breakdown" = Ok tb →
       py_getitem r "optimizations" = Ok op →
       estimate_tokens self spec model rpd cr t =
         (Ok {| total_tokens := tt; compressed_tokens := ct; model := m;
                daily_cost := dc; monthly_cost := mc; annual_cost := ac;
                annual_savings := sv; savings_percentage := sp;
                token_breakdown := tb; optimizations := op |}, t'))
  ∧ (∀ (r : pyval) (res : EstimationResult) (t' t'' : Trace),
       _make_request self "POST" "/estimate/tokens"
         (Some (estimate_body p model rpd cr)) t = (Ok r, t') →
       estimate_tokens self spec model rpd cr t = (Ok res, t'') →
       ∃ cp : pyval,
         py_getitem r "cost_projections" = Ok cp
         ∧ py_getitem cp "daily_cost" = Ok (daily_cost res)
         ∧ py_getitem cp "monthly_cost" = Ok (monthly_cost res)
         ∧ py_getitem cp "annual_cost" = Ok (annual_cost res)
         ∧ py_getitem cp "annual_savings" = Ok (annual_savings res)
         ∧ py_getitem cp "savings_percentage" = Ok (savings_percentage res)).
Proof.
  intros Hp. split; [| split].
  - eexists. unfold estimate_tokens, mbind at 1 2, M_bind.
    rewrite (load_if_str_resolved _ _ _ Hp). rewrite make_request_run.
    destruct (outcome_result _); reflexivity.
  - intros r cp tt ct m dc mc ac sv sp tb op t' Hreq Htt Hct Hcp Hm Hdc Hmc Hac Hsv Hsp
      Htb Hop.
    unfold estimate_tokens, mbind at 1 2, M_bind.
    rewrite (load_if_str_resolved _ _ _ Hp), Hreq.
    unfold lift. rewrite Htt, Hct, Hcp. simpl.
    rewrite Hm, Hdc, Hmc, Hac, Hsv, Hsp, Htb, Hop. reflexivity.
  - intros r res t' t'' Hreq.
    unfold estimate_tokens, mbind at 1 2, M_bind.
    rewrite (load_if_str_resolved _ _ _ Hp), Hreq.
    unfold lift.
    destruct (py_getitem r "total_tokens"); simpl; [| intros [=]].
    destruct (py_getitem r "compressed_tokens"); simpl; [| intros [=]].
    destruct (py_getitem r "cost_projections") as [cp |]; simpl; [| intros [=]].
    destruct (py_getitem cp "model") eqn:Em; simpl; [| intros [=]].
    destruct (py_getitem cp "daily_cost") eqn:Edc; simpl; [| intros [=]].
    destruct (py_getitem cp "monthly_cost") eqn:Emc; simpl; [| intros [=]].
    destruct (py_getitem cp "annual_cost") eqn:Eac; simpl; [| intros [=]].
    destruct (py_getitem cp "annual_savings") eqn:Esv; simpl; [| intros [=]].
    destruct (py_getitem cp "savings_percentage") eqn:Esp; simpl; [| intros [=]].
    destruct (py_getitem r "token_breakdown"); simpl; [| intros [=]].
    destruct (py_getitem r "optimizations"); simpl; [| intros [=]].
    intros [= <- <-]. exists cp. simpl. rewrite Edc, Emc, Eac, Esv, Esp. auto 10.
Qed.

End Payloads.

Lemma empty_list_same_as_none_witness :
  (∃ n : nat,
     (@validate_compliance canned_world demo_client (PStr "{}") (PList []) []).2 =
       ([] ++ [({| req_method := "POST";
                   req_url := @urljoin canned_world (base_url demo_client ++ "/")
                                "validate/compliance";
                   req_timeout := timeout demo_client;
                   req_json := Some (PDict {[ "configuration" := PDict ∅ ]}) |}, n)])%list)
  ∧ (∃ n : nat,
     (@validate_protocols canned_world demo_client (PStr "{}") (PList []) []).2 =
       ([] ++ [({| req_method := "POST";
                   req_url := @urljoin canned_world (base_url demo_client ++ "/")
                                "validate/protocols";
                   req_timeout := timeout demo_client;
                   req_json := Some (PDict {[ "configuration" := PDict ∅ ]}) |}, n)])%list).
Proof.
  destruct (@empty_list_same_as_none canned_world demo_client (PStr "{}") [])
    as (_ & _ & H).
  destruct (H (PDict ∅)) as (H1 & H2 & _); [reflexivity |].
  split; assumption.
Defined.

Lemma estimate_tokens_contract_witness :
  @estimate_tokens estimation_world demo_client (PDict ∅) default_model
    default_requests_per_day default_compression_ratio [] =
    (Ok {| total_tokens := PInt 1200; compressed_tokens := PInt 840;
           model := PStr "gpt-4-turbo";
           daily_cost := twelve_and_a_half; monthly_cost := PInt 375;
           annual_cost := PInt 4500; annual_savings := PInt 1350;
           savings_percentage := PInt 30;
           token_breakdown := PDict ∅; optimizations := PList [] |},
     [(demo_post "estimate/tokens"
         (estimate_body (PDict ∅) default_model default_requests_per_day
            default_compression_ratio), 1%nat)]).
Proof.
  destruct (@estimate_tokens_contract estimation_world demo_client (PDict ∅) (PDict ∅)
              default_model default_requests_per_day default_compression_ratio [])
    as (_ & H & _); [reflexivity |].
  apply (H estimation_response cost_projections_example); reflexivity.
Defined.

(** ** The composition *)

Section Composition.
Context `{W : World}.

Lemma load_if_str_cases (x : pyval) (t : Trace) :
  (∃ p, resolved x p ∧ load_if_str x t = (Ok p, t))
  ∨ ((∀ p, ¬ resolved x p) ∧ load_if_str x t = (Raised YAMLError, t)).
Proof.
  destruct x; try (left; eexists; split; reflexivity).
  simpl. destruct (yaml_safe_load s) as [p |] eqn:E.
  - left. exists p. split; reflexivity.
  - right. split; [intros p [=] | reflexivity].
Qed.

Lemma validate_openapi_trace (self : OpenAPIAgentsClient) (spec p : pyval) (t : Trace) :
  resolved spec p →
  (validate_openapi self spec t).2 =
    (t ++ [(request_of self "POST" "/validate/openapi"
              (Some (PDict {[ "specification" := p ]})),
            (transport_run self (request_of self "POST" "/validate/openapi"
               (Some (PDict {[ "specification" := p ]}))) t).1)])%list.
Proof.
  intros Hp. unfold validate_openapi, mbind at 1 2, M_bind.
  rewrite (load_if_str_resolved _ _ _ Hp), make_request_run.
  destruct (outcome_result _); reflexivity.
Qed.

Lemma estimate_tokens_trace (self : OpenAPIAgentsClient) (spec p m r c : pyval)
    (t : Trace) :
  resolved spec p →
  (estimate_tokens self spec m r c t).2 =
    (t ++ [(request_of self "POST" "/estimate/tokens" (Some (estimate_body p m r c)),
            (transport_run self (request_of self "POST" "/estimate/tokens"
               (Some (estimate_body p m r c))) t).1)])%list.
Proof.
  intros Hp. unfold estimate_tokens, mbind at 1 2, M_bind.
  rewrite (load_if_str_resolved _ _ _ Hp), make_request_run.
  destruct (outcome_result _); reflexivity.
Qed.

Lemma validate_openapi_unresolved (self : OpenAPIAgentsClient) (spec : pyval) (t : Trace) :
  (∀ p, ¬ resolved spec p) → validate_openapi self spec t = (Raised YAMLError, t).
Proof.
  intros Hn. unfold validate_openapi, mbind at 1, M_bind.
  destruct (load_if_str_cases spec t) as [(p & Hp & _) | (_ & E)].
  - destruct (Hn p Hp).
  - rewrite E. reflexivity.
Qed.

Lemma bind_estimation_options_keywords (opts : gmap string pyval) (k : string)
    (x : pyval * pyval * pyval) :
  bind_estimation_options opts = Ok x → k ∉ estimate_keywords → opts !! k = None.
Proof.
  unfold bind_estimation_options. intros Hb Hk.
  destruct (forallb _ _) eqn:E; [| discriminate Hb].
  destruct (opts !! k) as [v |] eqn:Ek; [| reflexivity].
  exfalso. apply Hk.
  rewrite forallb_forall in E.
  apply (bool_decide_eq_true_1 (k ∈ estimate_keywords)), E.
  apply list_elem_of_In, list_elem_of_fmap. exists (k, v).
  split; [reflexivity |]. apply elem_of_map_to_list. exact Ek.
Qed.

Lemma reserved_keywords_free (opts : gmap string pyval) (x : pyval * pyval * pyval) :
  bind_estimation_options opts = Ok x →
  bool_decide (is_Some (opts !! "specification")) || bool_decide (is_Some (opts !! "self"))
    = false.
Proof.
  intros Hb.
  rewrite (bind_estimation_options_keywords opts "specification" x Hb).
  - rewrite (bind_estimation_options_keywords opts "self" x Hb); [reflexivity |].
    intros H. apply (bool_decide_eq_true_2 _) in H. discriminate H.
  - intros H. apply (bool_decide_eq_true_2 _) in H. discriminate H.
Qed.

(** C6.  [validate_and_estimate] returns exactly when its
    [validate_openapi] call and then its [estimate_tokens] call both
    return; it returns the pair of their results in that order, and the
    calls of the run are then exactly two: the POST to
    [/validate/openapi] followed by the POST to [/estimate/tokens], both
    for the same specification.  No run issues any other request. *)
Theorem validate_and_estimate_calls (self : OpenAPIAgentsClient) (spec : pyval)
    (opts : gmap string pyval) (t : Trace) :
  (∀ (v : ValidationResult) (e : EstimationResult) (t' : Trace),
     validate_and_estimate self spec opts t = (Ok (v, e), t') →
     ∃ (p m r c : pyval) (n1 n2 : nat),
       resolved spec p
       ∧ bind_estimation_options opts = Ok (m, r, c)
       ∧ validate_openapi self spec t =
           (Ok v, (t ++ [(request_of self "POST" "/validate/openapi"
                            (Some (PDict {[ "specification" := p ]})), n1)])%list)
       ∧ estimate_tokens self spec m r c
           (t ++ [(request_of self "POST" "/validate/openapi"
                     (Some (PDict {[ "specification" := p ]})), n1)])%list = (Ok e, t')
       ∧ t' = (t ++ [(request_of self "POST" "/validate/openapi"
                        (Some (PDict {[ "specification" := p ]})), n1);
                     (request_of self "POST" "/estimate/tokens"
                        (Some (estimate_body p m r c)), n2)])%list)
  ∧ (∀ (v : ValidationResult) (e : EstimationResult) (m r c : pyval) (t1 t2 : Trace),
       validate_openapi self spec t = (Ok v, t1) →
       bind_estimation_options opts = Ok (m, r, c) →
       estimate_tokens self spec m r c t1 = (Ok e, t2) →
       validate_and_estimate self spec opts t = (Ok (v, e), t2))
  ∧ (∃ extra : Trace,
       (validate_and_estimate self spec opts t).2 = (t ++ extra)%list
       ∧ (extra = []
          ∨ (∃ (p : pyval) (n1 : nat),
               resolved spec p
               ∧ extra = [(request_of self "POST" "/validate/openapi"
                             (Some (PDict {[ "specification" := p ]})), n1)])
          ∨ (∃ (p m r c : pyval) (n1 n2 : nat),
               resolved spec p
               ∧ bind_estimation_options opts = Ok (m, r, c)
               ∧ extra = [(request_of self "POST" "/validate/openapi"
                             (Some (PDict {[ "specification" := p ]})), n1);
                          (request_of self "POST" "/estimate/tokens"
                             (Some (estimate_body p m r c)), n2)]))).
Proof.
  split; [| split].
  - intros v e t'. unfold validate_and_estimate.
    destruct (_ || _); [intros [=] |].
    unfold mbind at 1, M_bind.
    destruct (validate_openapi self spec t) as [[v' | e'] t1] eqn:E1; [| intros [=]].
    unfold mbind at 1, M_bind. unfold lift at 1.
    destruct (bind_estimation_options opts) as [[[m r] c] | e'] eqn:E2; [| intros [=]].
    unfold mbind at 1, M_bind.
    destruct (estimate_tokens self spec m r c t1) as [[e2 | e'] t2] eqn:E3; [| intros [=]].
    intros [= -> -> ->].
    destruct (load_if_str_cases spec t) as [(p & Hp & _) | (Hn & _)].
    + pose proof (validate_openapi_trace self spec p t Hp) as T1.
      rewrite E1 in T1. simpl in T1. subst t1.
      pose proof (f_equal snd E3) as T3.
      rewrite (estimate_tokens_trace self spec p m r c _ Hp) in T3.
      simpl in T3. subst t'.
      exists p, m, r, c. eexists. eexists.
      split; [exact Hp |]. split; [reflexivity |]. split; [reflexivity |].
      split; [exact E3 |]. rewrite <- app_assoc. reflexivity.
    + rewrite (validate_openapi_unresolved self spec t Hn) in E1. discriminate E1.
  - intros v e m r c t1 t2 E1 E2 E3. unfold validate_and_estimate.
    rewrite (reserved_keywords_free _ _ E2).
    unfold mbind at 1, M_bind. rewrite E1.
    unfold mbind at 1, M_bind. unfold lift at 1. rewrite E2.
    unfold mbind at 1, M_bind. rewrite E3. reflexivity.
  - unfold validate_and_estimate.
    destruct (_ || _).
    { exists []. split; [simpl; rewrite app_nil_r; reflexivity | left; reflexivity]. }
    destruct (load_if_str_cases spec t) as [(p & Hp & _) | (Hn & _)].
    + pose proof (validate_openapi_trace self spec p t Hp) as T1.
      unfold mbind at 1, M_bind.
      destruct (validate_openapi self spec t) as [[v' | e'] t1] eqn:E1;
        simpl in T1; subst t1.
      2:{ eexists. split; [reflexivity |]. right. left. eauto. }
      unfold mbind at 1, M_bind. unfold lift at 1.
      destruct (bind_estimation_options opts) as [[[m r] c] | e'] eqn:E2.
      2:{ eexists. split; [reflexivity |]. right. left. eauto. }
      pose proof (estimate_tokens_trace self spec p m r c
                    (t ++ [(request_of self "POST" "/validate/openapi"
                              (Some (PDict {[ "specification" := p ]})),
                            (transport_run self (request_of self "POST" "/validate/openapi"
                               (Some (PDict {[ "specification" := p ]}))) t).1)])%list
                    Hp) as T3.
      unfold mbind at 1, M_bind.
      destruct (estimate_tokens self spec m r c _) as [[e2 | e'] t2] eqn:E3;
        simpl in T3; subst t2; simpl; rewrite <- app_assoc;
        (eexists; split; [reflexivity |]; right; right;
         exists p, m, r, c; eexists; eexists; eauto).
    + unfold mbind at 1, M_bind.
      rewrite (validate_openapi_unresolved self spec t Hn).
      exists []. split; [simpl; rewrite app_nil_r; reflexivity | left; reflexivity].
Qed.

End Composition.

Lemma validate_and_estimate_calls_witness :
  @validate_and_estimate full_world demo_client (PDict ∅)
    {[ "requests_per_day" := PInt 50 ]} [] =
    (Ok ({| valid := PBool true; certification_level := PStr "gold";
            passed := PList [PStr "a"]; warnings := PList [];
            errors := PList [] |},
         {| total_tokens := PInt 1200; compressed_tokens := PInt 840;
            model := PStr "gpt-4-turbo";
            daily_cost := twelve_and_a_half; monthly_cost := PInt 375;
            annual_cost := PInt 4500; annual_savings := PInt 1350;
            savings_percentage := PInt 30;
            token_breakdown := PDict ∅; optimizations := PList [] |}),
     [(demo_post "validate/openapi" (PDict {[ "specification" := PDict ∅ ]}), 1%nat);
      (demo_post "estimate/tokens"
         (estimate_body (PDict ∅) default_model (PInt 50) default_compression_ratio),
       1%nat)]).
Proof.
  destruct (@validate_and_estimate_calls full_world demo_client (PDict ∅)
              {[ "requests_per_day" := PInt 50 ]} []) as (_ & H & _).
  apply (H _ _ default_model (PInt 50) default_compression_ratio
           [(demo_post "validate/openapi" (PDict {[ "specification" := PDict ∅ ]}), 1%nat)]);
    reflexivity.
Defined.

(** ** Reading back what was written *)

Lemma span_app (p : ascii → bool) (w r : string) :
  string_forall p w = true →
  match r with String c _ => p c = false | EmptyString => True end →
  span p (w ++ r) = (w, r).
Proof.
  intros Hw Hr. induction w as [| c w IH]; simpl in *.
  - destruct r as [| c r]; [reflexivity |]. simpl. rewrite Hr. reflexivity.
  - apply andb_true_iff in Hw as [Hc Hw]. rewrite Hc, (IH Hw). reflexivity.
Qed.

Lemma string_forall_impl (p q : ascii → bool) (s : string) :
  (∀ c, p c = true → q c = true) → string_forall p s = true → string_forall q s = true.
Proof.
  intros Hpq. induction s as [| c s IH]; simpl; [reflexivity |].
  intros H. apply andb_true_iff in H as [Hc Hs].
  rewrite (Hpq c Hc), (IH Hs). reflexivity.
Qed.

Lemma uint_digits (d : Decimal.uint) :
  string_forall is_digit (NilEmpty.string_of_uint d) = true.
Proof. induction d; simpl; auto. Qed.

Lemma str_of_Z_chars (z : Z) : string_forall is_sign_or_digit (str_of_Z z) = true.
Proof.
  assert (Hu : ∀ d, string_forall is_sign_or_digit (NilZero.string_of_uint d) = true).
  { intros d. apply (string_forall_impl is_digit).
    - intros c Hc. unfold is_sign_or_digit. rewrite Hc. reflexivity.
    - destruct d; try apply uint_digits. reflexivity. }
  unfold str_of_Z, NilZero.string_of_int.
  destruct (Z.to_int z); [apply Hu |]. simpl. apply Hu.
Qed.

Lemma int_of_string_str_of_Z (z : Z) :
  NilZero.int_of_string (str_of_Z z) = Some (Z.to_int z).
Proof.
  unfold str_of_Z. apply NilZero.isi.
  - destruct z; simpl; try discriminate.
    intros [= E]. apply (Unsigned.to_uint_nonnil _ E).
  - destruct z; simpl; try discriminate.
    intros [= E]. apply (Unsigned.to_uint_nonnil _ E).
Qed.

Lemma parse_int_str_of_Z (z : Z) : in_range z = true → parse_int (str_of_Z z) = Some z.
Proof.
  intros Hz. unfold parse_int. rewrite int_of_string_str_of_Z.
  rewrite DecimalZ.of_to, String.eqb_refl, Hz. reflexivity.
Qed.

Lemma string_app_cons (c : ascii) (a b : string) : String c a ++ b = String c (a ++ b).
Proof. reflexivity. Qed.

Lemma string_app_nil (b : string) : "" ++ b = b.
Proof. reflexivity. Qed.

Lemma string_app_assoc (a b c : string) : (a ++ b) ++ c = a ++ (b ++ c).
Proof.
  induction a as [| x a IH]; [reflexivity |].
  rewrite !string_app_cons, IH. reflexivity.
Qed.

Lemma string_length_app (a b : string) :
  String.length (a ++ b) = (String.length a + String.length b)%nat.
Proof.
  induction a as [| x a IH]; [reflexivity |].
  rewrite string_app_cons. simpl. rewrite IH. reflexivity.
Qed.

Lemma string_forall_eqb_false (p : ascii → bool) (s t : string) :
  string_forall p s = true → string_forall p t = false → String.eqb s t = false.
Proof.
  intros Hs Ht. destruct (String.eqb_spec s t) as [-> | ]; [congruence | reflexivity].
Qed.

Lemma str_of_Z_head (z : Z) :
  ∃ c s, str_of_Z z = String c s ∧ is_sign_or_digit c = true.
Proof.
  pose proof (int_of_string_str_of_Z z) as Hp. pose proof (str_of_Z_chars z) as Hc.
  destruct (str_of_Z z) as [| c s]; [discriminate Hp |].
  exists c, s. split; [reflexivity |].
  simpl in Hc. apply andb_true_iff in Hc as [Hc _]. exact Hc.
Qed.

Lemma sign_or_digit_token (c : ascii) : is_sign_or_digit c = true → is_token c = true.
Proof.
  unfold is_sign_or_digit, is_token. intros H.
  apply orb_true_iff in H as [H | H]; rewrite H.
  - rewrite orb_true_r. reflexivity.
  - apply orb_true_r.
Qed.

Lemma lower_token (c : ascii) : is_lower c = true → is_token c = true.
Proof. unfold is_token. intros ->. reflexivity. Qed.

Lemma lower_not_sign_or_digit (c : ascii) :
  is_lower c = true → is_sign_or_digit c = false.
Proof.
  intros H. unfold is_sign_or_digit. apply orb_false_iff. split.
  - unfold is_lower in H. unfold is_digit.
    apply andb_true_iff in H as [H1 H2].
    apply Nat.leb_le in H1. apply Nat.leb_le in H2.
    apply andb_false_iff. right. apply Nat.leb_gt. lia.
  - destruct (Ascii.eqb_spec c "-") as [-> | ]; [discriminate H | reflexivity].
Qed.

Lemma json_token_int (z : Z) :
  in_range z = true → json_token (str_of_Z z) = Some (SInt z).
Proof.
  intros Hz. unfold json_token.
  rewrite !(string_forall_eqb_false is_sign_or_digit) by
    (apply str_of_Z_chars || reflexivity).
  rewrite (parse_int_str_of_Z z Hz). reflexivity.
Qed.

Lemma json_value_token (tok r : string) (v : scalar) :
  (∃ c s, tok = String c s ∧ Ascii.eqb c dquote = false) →
  string_forall is_token tok = true →
  match r with String c _ => is_token c = false | EmptyString => True end →
  json_token tok = Some v →
  json_value (tok ++ r) = Some (v, r).
Proof.
  intros (c & s & -> & Hc) Ht Hr Hv. rewrite string_app_cons.
  unfold json_value. rewrite Hc. rewrite <- string_app_cons.
  rewrite (span_app _ _ _ Ht Hr), Hv. reflexivity.
Qed.

Lemma plain_word_lower (w : string) : plain_word w = true → string_forall is_lower w = true.
Proof.
  unfold plain_word. intros H.
  apply andb_true_iff in H as [H _]. apply andb_true_iff in H as [H _].
  apply andb_true_iff in H as [_ H]. exact H.
Qed.

Lemma plain_word_head (w : string) :
  plain_word w = true → ∃ c s, w = String c s ∧ is_lower c = true.
Proof.
  intros H. pose proof (plain_word_lower w H) as Hl.
  destruct w as [| c s]; [discriminate H |].
  exists c, s. split; [reflexivity |].
  simpl in Hl. apply andb_true_iff in Hl as [Hc _]. exact Hc.
Qed.

Lemma json_value_text (v : scalar) (r : string) :
  simple_scalar v = true →
  match r with String c _ => is_token c = false | EmptyString => True end →
  json_value (json_scalar v ++ r) = Some (v, r).
Proof.
  intros Hv Hr. destruct v as [| [] | z | w].
  - apply json_value_token; [eexists _, _; split; reflexivity | reflexivity | exact Hr
                            | reflexivity].
  - apply json_value_token; [eexists _, _; split; reflexivity | reflexivity | exact Hr
                            | reflexivity].
  - apply json_value_token; [eexists _, _; split; reflexivity | reflexivity | exact Hr
                            | reflexivity].
  - simpl json_scalar. apply json_value_token.
    + destruct (str_of_Z_head z) as (c & s & E & Hc). exists c, s. split; [exact E |].
      destruct (Ascii.eqb_spec c dquote) as [-> | ]; [discriminate Hc | reflexivity].
    + apply (string_forall_impl is_sign_or_digit); [apply sign_or_digit_token |].
      apply str_of_Z_chars.
    + exact Hr.
    + apply json_token_int. exact Hv.
  - simpl in Hv. unfold json_scalar.
    rewrite string_app_cons, string_app_assoc, string_app_cons, string_app_nil.
    unfold json_value. replace (Ascii.eqb dquote dquote) with true by reflexivity.
    rewrite (span_app is_lower w _ (plain_word_lower w Hv)) by reflexivity.
    reflexivity.
Qed.

Lemma json_members_text_cons (k : string) (v : scalar) (obj : list (string * scalar))
    (rest : string) :
  json_members_text ((k, v) :: obj) rest =
    String dquote "" ++ k ++ String dquote ": " ++ json_scalar v ++
      match obj with
      | [] => rest
      | _ => ", " ++ json_members_text obj rest
      end.
Proof. reflexivity. Qed.

Lemma strip_prefix_app (pre r : string) : strip_prefix pre (pre ++ r) = Some r.
Proof.
  induction pre as [| c pre IH]; [reflexivity |].
  rewrite string_app_cons. simpl. rewrite Ascii.eqb_refl. exact IH.
Qed.

Lemma bind_Some {A B : Type} (x : A) (f : A → option B) : Some x ≫= f = f x.
Proof. reflexivity. Qed.

Lemma json_members_S (fuel : nat) (s : string) :
  json_members (S fuel) s =
    strip_prefix (String dquote "") s ≫= λ s1,
    let '(k, r) := span is_lower s1 in
    strip_prefix (String dquote ": ") r ≫= λ r1,
    json_value r1 ≫= λ '(v, r2),
    if String.eqb r2 "}" then Some [(k, v)]
    else strip_prefix ", " r2 ≫= λ r3,
         json_members fuel r3 ≫= λ obj, Some ((k, v) :: obj).
Proof. reflexivity. Qed.

Lemma comma_not_brace (x : string) : String.eqb (", " ++ x) "}" = false.
Proof. reflexivity. Qed.

Lemma json_members_roundtrip (obj : list (string * scalar)) :
  obj ≠ [] → forallb simple_entry obj = true →
  ∀ fuel, (length obj ≤ fuel)%nat →
  json_members fuel (json_members_text obj "}") = Some obj.
Proof.
  induction obj as [| [k v] obj IH]; [intros H; destruct H; reflexivity |].
  intros _ Hs fuel Hf. simpl in Hs. apply andb_true_iff in Hs as [Hkv Hs].
  apply andb_true_iff in Hkv as [Hk Hv]. simpl in Hk, Hv.
  destruct fuel as [| fuel]; [simpl in Hf; lia |].
  rewrite json_members_S, json_members_text_cons.
  rewrite strip_prefix_app, bind_Some. cbv beta iota zeta.
  rewrite (span_app is_lower k _ (plain_word_lower k Hk)) by reflexivity.
  cbv beta iota zeta.
  rewrite strip_prefix_app, bind_Some. cbv beta iota zeta.
  destruct obj as [| p obj].
  - rewrite (json_value_text v "}" Hv) by reflexivity.
    rewrite bind_Some. cbv beta iota zeta. reflexivity.
  - rewrite (json_value_text v _ Hv) by reflexivity.
    rewrite bind_Some. cbv beta iota zeta.
    rewrite comma_not_brace, strip_prefix_app, bind_Some. cbv beta iota zeta.
    rewrite IH; [reflexivity | discriminate | exact Hs | simpl in *; lia].
Qed.

Lemma json_members_text_length (obj : list (string * scalar)) (rest : string) :
  (length obj ≤ String.length (json_members_text obj rest))%nat.
Proof.
  induction obj as [| [k v] obj IH]; [simpl; lia |].
  rewrite json_members_text_cons, !string_length_app.
  destruct obj as [| p obj]; [simpl; lia |].
  rewrite string_length_app. simpl in *. lia.
Qed.

Lemma keys_prod_map (obj : list (string * scalar)) :
  (prod_map id scalar_value <$> obj).*1 = obj.*1.
Proof. induction obj as [| [k v] obj IH]; [reflexivity | cbn; f_equal; exact IH]. Qed.

Lemma simple_object_spec (obj : list (string * scalar)) :
  simple_object obj = true ↔ NoDup obj.*1 ∧ forallb simple_entry obj = true.
Proof.
  unfold simple_object. rewrite andb_true_iff, bool_decide_eq_true. reflexivity.
Qed.

Lemma json_dumps_shape (obj : list (string * scalar)) :
  json_dumps obj = "{" ++ json_members_text obj "}".
Proof. reflexivity. Qed.

Lemma json_dumps_nonempty (p : string * scalar) (obj : list (string * scalar)) :
  String.eqb (json_dumps (p :: obj)) "{}" = false.
Proof. destruct p as [k v]. reflexivity. Qed.

Lemma json_roundtrip (obj : list (string * scalar)) :
  simple_object obj = true → json_parse (json_dumps obj) = Some (object_value obj).
Proof.
  intros H. apply simple_object_spec in H as [Hnd Hs].
  destruct obj as [| p obj]; [reflexivity |].
  unfold json_parse. rewrite json_dumps_nonempty, json_dumps_shape.
  rewrite strip_prefix_app, bind_Some.
  rewrite json_members_roundtrip; [| discriminate | exact Hs |].
  - rewrite bind_Some. rewrite bool_decide_eq_true_2 by exact Hnd. reflexivity.
  - rewrite string_length_app.
    pose proof (json_members_text_length (p :: obj) "}"). lia.
Qed.

Lemma string_of_int_chars (d : Decimal.int) :
  string_forall is_sign_or_digit (NilZero.string_of_int d) = true.
Proof.
  assert (Hu : ∀ u, string_forall is_sign_or_digit (NilZero.string_of_uint u) = true).
  { intros u. apply (string_forall_impl is_digit).
    - intros c Hc. unfold is_sign_or_digit. rewrite Hc. reflexivity.
    - destruct u; try apply uint_digits. reflexivity. }
  destruct d; [apply Hu |]. simpl. apply Hu.
Qed.

Lemma parse_int_word (w : string) : plain_word w = true → parse_int w = None.
Proof.
  intros Hw. unfold parse_int.
  destruct (NilZero.int_of_string w) as [d |] eqn:E; [| reflexivity].
  exfalso. apply NilZero.sis in E.
  destruct (plain_word_head w Hw) as (c & s & -> & Hc).
  pose proof (string_of_int_chars d) as Hd. rewrite E in Hd. simpl in Hd.
  apply andb_true_iff in Hd as [Hd _].
  rewrite (lower_not_sign_or_digit c Hc) in Hd. discriminate Hd.
Qed.

Lemma plain_word_not_reserved (w r : string) :
  plain_word w = true → r ∈ reserved_words → String.eqb w r = false.
Proof.
  intros Hw Hr. destruct (String.eqb_spec w r) as [-> | ]; [| reflexivity].
  unfold plain_word in Hw. apply andb_true_iff in Hw as [_ Hw].
  apply negb_true_iff, bool_decide_eq_false in Hw. contradiction.
Qed.

Lemma yaml_token_text (v : scalar) :
  simple_scalar v = true → yaml_token (yaml_scalar v) = Some v.
Proof.
  intros Hv. destruct v as [| [] | z | w]; try reflexivity.
  - unfold yaml_token, yaml_scalar.
    rewrite !(string_forall_eqb_false is_sign_or_digit) by
      (apply str_of_Z_chars || reflexivity).
    rewrite (parse_int_str_of_Z z Hv). reflexivity.
  - simpl in Hv. unfold yaml_token, yaml_scalar.
    rewrite !(plain_word_not_reserved w) by first [exact Hv | repeat constructor].
    rewrite (parse_int_word w Hv), Hv. reflexivity.
Qed.

Lemma yaml_scalar_token (v : scalar) :
  simple_scalar v = true → string_forall is_token (yaml_scalar v) = true.
Proof.
  intros Hv. destruct v as [| [] | z | w]; try reflexivity.
  - apply (string_forall_impl is_sign_or_digit); [apply sign_or_digit_token |].
    apply str_of_Z_chars.
  - apply (string_forall_impl is_lower); [apply lower_token |].
    apply plain_word_lower. exact Hv.
Qed.

Lemma yaml_lines_cons (k : string) (v : scalar) (obj : list (string * scalar)) :
  yaml_lines ((k, v) :: obj) =
    k ++ ": " ++ yaml_scalar v ++ String newline "" ++ yaml_lines obj.
Proof. reflexivity. Qed.

Lemma yaml_entries_S (fuel : nat) (s : string) :
  yaml_entries (S fuel) s =
    let '(k, r) := span is_lower s in
    if plain_word k then
      strip_prefix ": " r ≫= λ r1,
      let '(tok, r2) := span is_token r1 in
      yaml_token tok ≫= λ v,
      strip_prefix (String newline "") r2 ≫= λ r3,
      if String.eqb r3 "" then Some [(k, v)]
      else yaml_entries fuel r3 ≫= λ obj, Some ((k, v) :: obj)
    else None.
Proof. reflexivity. Qed.

Lemma yaml_lines_head (k : string) (v : scalar) (obj : list (string * scalar)) :
  plain_word k = true →
  ∃ c s, yaml_lines ((k, v) :: obj) = String c s ∧ is_lower c = true.
Proof.
  intros Hk. destruct (plain_word_head k Hk) as (c & s & -> & Hc).
  rewrite yaml_lines_cons, string_app_cons. eauto.
Qed.

Lemma yaml_entries_roundtrip (obj : list (string * scalar)) :
  obj ≠ [] → forallb simple_entry obj = true →
  ∀ fuel, (length obj ≤ fuel)%nat →
  yaml_entries fuel (yaml_lines obj) = Some obj.
Proof.
  induction obj as [| [k v] obj IH]; [intros H; destruct H; reflexivity |].
  intros _ Hs fuel Hf. simpl in Hs. apply andb_true_iff in Hs as [Hkv Hs].
  apply andb_true_iff in Hkv as [Hk Hv]. simpl in Hk, Hv.
  destruct fuel as [| fuel]; [simpl in Hf; lia |].
  rewrite yaml_entries_S, yaml_lines_cons.
  rewrite (span_app is_lower k _ (plain_word_lower k Hk)) by reflexivity.
  cbv beta iota zeta. rewrite Hk.
  rewrite strip_prefix_app, bind_Some. cbv beta iota zeta.
  rewrite (span_app is_token _ _ (yaml_scalar_token v Hv)) by reflexivity.
  cbv beta iota zeta.
  rewrite (yaml_token_text v Hv), bind_Some. cbv beta iota zeta.
  rewrite strip_prefix_app, bind_Some. cbv beta iota zeta.
  destruct obj as [| [k' v'] obj]; [reflexivity |].
  assert (Hk' : plain_word k' = true).
  { simpl in Hs. apply andb_true_iff in Hs as [Hkv' _].
    apply andb_true_iff in Hkv' as [Hk' _]. exact Hk'. }
  destruct (yaml_lines_head k' v' obj Hk') as (c & s & E & _).
  rewrite E at 1. cbn [String.eqb].
  rewrite IH; [reflexivity | discriminate | exact Hs | simpl in *; lia].
Qed.

Lemma yaml_lines_length (obj : list (string * scalar)) :
  (length obj ≤ String.length (yaml_lines obj))%nat.
Proof.
  induction obj as [| [k v] obj IH]; [simpl; lia |].
  rewrite yaml_lines_cons, !string_length_app. simpl in *. lia.
Qed.

Lemma yaml_roundtrip (obj : list (string * scalar)) :
  simple_object obj = true → yaml_parse (yaml_dump obj) = Some (object_value obj).
Proof.
  intros H. apply simple_object_spec in H as [Hnd Hs].
  destruct obj as [| p obj]; [reflexivity |].
  change (yaml_dump (p :: obj)) with (yaml_lines (merge_sort key_le (p :: obj))).
  pose proof (merge_sort_Permutation key_le (p :: obj)) as Hperm.
  set (sorted := merge_sort key_le (p :: obj)) in *.
  assert (Hs' : forallb simple_entry sorted = true).
  { apply forallb_forall. intros x Hx. rewrite forallb_forall in Hs. apply Hs.
    apply list_elem_of_In. rewrite <- Hperm. apply list_elem_of_In. exact Hx. }
  assert (Hnd' : NoDup sorted.*1) by (rewrite Hperm; exact Hnd).
  destruct sorted as [| [k v] sorted'] eqn:Esorted.
  { apply Permutation_nil_l in Hperm. discriminate Hperm. }
  unfold yaml_parse.
  assert (Hk : plain_word k = true).
  { simpl in Hs'. apply andb_true_iff in Hs' as [Hkv _].
    apply andb_true_iff in Hkv as [Hk _]. exact Hk. }
  destruct (yaml_lines_head k v sorted' Hk) as (c & s & E & Hc).
  replace (String.eqb (yaml_lines ((k, v) :: sorted')) ("{}" ++ String newline ""))
    with false.
  2:{ rewrite E.
      change ("{}" ++ String newline "") with (String "{" (String "}" (String newline ""))).
      cbn [String.eqb].
      destruct (Ascii.eqb_spec c "{") as [-> | ]; [discriminate Hc | reflexivity]. }
  rewrite yaml_entries_roundtrip; [| discriminate | exact Hs' | apply yaml_lines_length].
  rewrite bind_Some. rewrite bool_decide_eq_true_2 by exact Hnd'.
  unfold object_value. do 2 f_equal.
  apply list_to_map_proper.
  - rewrite keys_prod_map. exact Hnd'.
  - rewrite Hperm. reflexivity.
Qed.

(** ** The file loader *)

Section Loader.
Context `{W : World}.

(** C7.  [load_specification] reads a path ending in [.yaml] or [.yml]
    with the YAML decoder and any other path with the JSON decoder, and
    a text the decoder rejects surfaces as the decoder's error.  Every
    simple object is read back from its YAML text and from its JSON
    text as an equal object; so when the file holds the YAML (resp.
    JSON) text of a simple object, and the decoder reads the texts of
    this fragment as the format defines, [load_specification] returns an
    equal object. *)
Theorem load_specification_dispatch (file_path f : string) :
  read_file file_path = Some f →
  (endswith file_path ".yaml" = true ∨ endswith file_path ".yml" = true →
     load_specification file_path =
       match yaml_safe_load f with
       | Some v => Ok v
       | None => Raised YAMLError
       end)
  ∧ (endswith file_path ".yaml" = false → endswith file_path ".yml" = false →
     load_specification file_path =
       match json_load f with
       | inr v => Ok v
       | inl msg => Raised (JSONDecodeError msg)
       end)
  ∧ (∀ obj : list (string * scalar),
       simple_object obj = true →
       yaml_parse (yaml_dump obj) = Some (object_value obj)
       ∧ json_parse (json_dumps obj) = Some (object_value obj)
       ∧ (endswith file_path ".yaml" = true ∨ endswith file_path ".yml" = true →
          f = yaml_dump obj →
          (∀ s v, yaml_parse s = Some v → yaml_safe_load s = Some v) →
          load_specification file_path = Ok (object_value obj))
       ∧ (endswith file_path ".yaml" = false → endswith file_path ".yml" = false →
          f = json_dumps obj →
          (∀ s v, json_parse s = Some v → json_load s = inr v) →
          load_specification file_path = Ok (object_value obj))).
Proof.
  intros Hf.
  assert (Hy : endswith file_path ".yaml" = true ∨ endswith file_path ".yml" = true →
     load_specification file_path =
       match yaml_safe_load f with
       | Some v => Ok v
       | None => Raised YAMLError
       end).
  { intros Hext. unfold load_specification. rewrite Hf.
    replace (endswith file_path ".yaml" || endswith file_path ".yml") with true;
      [reflexivity |].
    symmetry. apply orb_true_iff. exact Hext. }
  assert (Hj : endswith file_path ".yaml" = false → endswith file_path ".yml" = false →
     load_specification file_path =
       match json_load f with
       | inr v => Ok v
       | inl msg => Raised (JSONDecodeError msg)
       end).
  { intros H1 H2. unfold load_specification. rewrite Hf, H1, H2. reflexivity. }
  split; [exact Hy |]. split; [exact Hj |].
  intros obj Hobj.
  pose proof (yaml_roundtrip obj Hobj) as Ry.
  pose proof (json_roundtrip obj Hobj) as Rj.
  split; [exact Ry |]. split; [exact Rj |]. split.
  - intros Hext -> Hlib. rewrite (Hy Hext), (Hlib _ _ Ry). reflexivity.
  - intros H1 H2 -> Hlib. rewrite (Hj H1 H2), (Hlib _ _ Rj). reflexivity.
Qed.

Lemma load_specification_no_exit (file_path : string) :
  no_exit (load_specification file_path) = true.
Proof.
  unfold load_specification.
  destruct (read_file file_path); [| reflexivity].
  destruct (_ || _).
  - destruct (yaml_safe_load _); reflexivity.
  - destruct (json_load _); reflexivity.
Qed.

End Loader.

Lemma load_specification_dispatch_witness :
  @load_specification (codec_world example_files) "x.yaml" = Ok (object_value example_object)
  ∧ @load_specification (codec_world example_files) "x.json" =
      Ok (object_value example_object)
  ∧ @load_specification tilde_world "x.yaml" = Ok PNone
  ∧ @load_specification tilde_world "x.json" = Raised (JSONDecodeError "Expecting value").
Proof.
  split; [| split; [| split]].
  - destruct (@load_specification_dispatch (codec_world example_files) "x.yaml"
                (yaml_dump example_object) eq_refl) as (_ & _ & H).
    destruct (H example_object eq_refl) as (_ & _ & H1 & _).
    apply H1; [left; reflexivity | reflexivity |].
    intros s v Hs. exact Hs.
  - destruct (@load_specification_dispatch (codec_world example_files) "x.json"
                (json_dumps example_object) eq_refl) as (_ & _ & H).
    destruct (H example_object eq_refl) as (_ & _ & _ & H2).
    apply H2; [reflexivity | reflexivity | reflexivity |].
    intros s v Hs. simpl. rewrite Hs. reflexivity.
  - destruct (@load_specification_dispatch tilde_world "x.yaml" "~" eq_refl)
      as (H & _ & _).
    apply H. left. reflexivity.
  - destruct (@load_specification_dispatch tilde_world "x.json" "~" eq_refl)
      as (_ & H & _).
    apply H; reflexivity.
Defined.

(** ** The command line *)

Lemma no_exit_bind {A B : Type} (r : result A) (f : A → result B) :
  no_exit r = true → (∀ a, no_exit (f a) = true) → no_exit (r ≫= f) = true.
Proof. destruct r; simpl; auto. Qed.

Lemma no_exit_bind_M {A B : Type} (m : M A) (f : A → M B) (t : Trace) :
  no_exit (m t).1 = true → (∀ a t', no_exit (f a t').1 = true) →
  no_exit ((m ≫= f) t).1 = true.
Proof.
  unfold mbind, M_bind. destruct (m t) as [[a | e] t']; simpl; auto.
Qed.

Lemma py_getitem_no_exit (v : pyval) (key : string) : no_exit (py_getitem v key) = true.
Proof. destruct v; simpl; try reflexivity. destruct (d !! key); reflexivity. Qed.

Lemma for_each_no_exit (l : list pyval) (body : pyval → result unit) :
  (∀ x, no_exit (body x) = true) → no_exit (for_each l body) = true.
Proof.
  intros Hb. induction l as [| x l IH]; [reflexivity |].
  simpl. apply no_exit_bind; [apply Hb | intros _; exact IH].
Qed.

Section CommandLine.
Context `{W : World}.

Lemma make_request_no_exit (self : OpenAPIAgentsClient) (method endpoint : string)
    (json : option pyval) (t : Trace) :
  no_exit (_make_request self method endpoint json t).1 = true.
Proof.
  rewrite make_request_run. simpl.
  destruct (transport_run _ _ _).2 as [r | msg]; [| reflexivity].
  unfold outcome_result.
  destruct (_ && _).
  - unfold handle_http_error, response_json.
    destruct (status_code r =? 401); [reflexivity |].
    destruct (status_code r =? 429); [reflexivity |].
    destruct (400 <=? status_code r); [| reflexivity].
    destruct (json_body r) as [m | v]; [reflexivity |].
    destruct v; reflexivity.
  - destruct (json_body r); reflexivity.
Qed.

Lemma load_if_str_no_exit (x : pyval) (t : Trace) : no_exit (load_if_str x t).1 = true.
Proof.
  destruct x; try reflexivity. simpl. destruct (yaml_safe_load s); reflexivity.
Qed.

Lemma validate_openapi_no_exit (self : OpenAPIAgentsClient) (spec : pyval) (t : Trace) :
  no_exit (validate_openapi self spec t).1 = true.
Proof.
  unfold validate_openapi.
  apply no_exit_bind_M; [apply load_if_str_no_exit |]. intros p t1.
  apply no_exit_bind_M; [apply make_request_no_exit |]. intros r t2.
  unfold lift. simpl.
  repeat (apply no_exit_bind; [apply py_getitem_no_exit | intros ?]).
  reflexivity.
Qed.

Lemma estimate_tokens_no_exit (self : OpenAPIAgentsClient) (spec m r c : pyval)
    (t : Trace) :
  no_exit (estimate_tokens self spec m r c t).1 = true.
Proof.
  unfold estimate_tokens.
  apply no_exit_bind_M; [apply load_if_str_no_exit |]. intros p t1.
  apply no_exit_bind_M; [apply make_request_no_exit |]. intros resp t2.
  unfold lift. simpl.
  repeat (apply no_exit_bind;
          [first [ apply py_getitem_no_exit
                 | apply no_exit_bind; [apply py_getitem_no_exit
                                       | intros ?; apply py_getitem_no_exit] ]
          | intros ?]).
  reflexivity.
Qed.

Lemma cli_report_estimation_no_exit (estimation : EstimationResult) :
  no_exit (cli_report_estimation estimation) = true.
Proof.
  unfold cli_report_estimation.
  assert (Ht : ∀ v, no_exit (format_thousands v) = true) by (intros []; reflexivity).
  assert (Hf : ∀ v, no_exit (format_fixed v) = true).
  { intros []; try reflexivity. simpl. destruct (_ <? _); reflexivity. }
  assert (Hl : ∀ v, no_exit (py_len v) = true) by (intros []; reflexivity).
  assert (Hs : ∀ v n, no_exit (py_slice v n) = true) by (intros [] ?; reflexivity).
  repeat (apply no_exit_bind; [first [apply Ht | apply Hf] | intros _]).
  destruct (py_truthy _); [| reflexivity].
  apply no_exit_bind; [apply Hl | intros _].
  apply no_exit_bind; [apply Hs | intros opts].
  apply for_each_no_exit. intros opt.
  repeat (apply no_exit_bind; [apply py_getitem_no_exit | intros _]).
  reflexivity.
Qed.

(** [cli_report_validation] returns only for a truthy [valid]; for a
    falsy one it raises, [SystemExit 1] or an exception. *)
Lemma cli_report_validation_cases (validation : ValidationResult) :
  match cli_report_validation validation with
  | Ok _ => py_truthy (valid validation) = true
  | Raised (SystemExit code) => code = 1
  | Raised _ => True
  end.
Proof.
  unfold cli_report_validation.
  destruct (py_truthy (valid validation)).
  - destruct (certification_level validation); simpl; try exact I.
    destruct (passed validation); simpl; try exact I;
      destruct (py_truthy (warnings validation)); try reflexivity;
      destruct (warnings validation); simpl; try exact I; reflexivity.
  - destruct (errors validation); simpl; try exact I; reflexivity.
Qed.

(** The only [SystemExit] the body of the [try] raises has code 1. *)
Lemma cli_body_exit (spec_file api_key : string) (t t' : Trace) (code : Z) :
  cli_body spec_file api_key t = (Raised (SystemExit code), t') → code = 1.
Proof.
  unfold cli_body. unfold mbind at 1, M_bind. unfold lift at 1.
  pose proof (load_specification_no_exit spec_file) as H1.
  destruct (load_specification spec_file) as [spec | e]; simpl in H1.
  2:{ intros [= -> _]. discriminate H1. }
  unfold mbind at 1, M_bind.
  pose proof (validate_openapi_no_exit
                (__init__ api_key default_base_url default_timeout default_max_retries)
                spec t) as H2.
  destruct (validate_openapi _ spec t) as [[v | e] t1]; simpl in H2.
  2:{ intros [= -> _]. discriminate H2. }
  unfold mbind at 1, M_bind. unfold lift at 1.
  pose proof (cli_report_validation_cases v) as H3.
  destruct (cli_report_validation v) as [u | e].
  2:{ intros [= -> _]. exact H3. }
  unfold mbind at 1, M_bind.
  pose proof (estimate_tokens_no_exit
                (__init__ api_key default_base_url default_timeout default_max_retries)
                spec default_model default_requests_per_day default_compression_ratio
                t1) as H4.
  destruct (estimate_tokens _ spec _ _ _ t1) as [[est | e] t2]; simpl in H4.
  2:{ intros [= -> _]. discriminate H4. }
  unfold lift.
  pose proof (cli_report_estimation_no_exit est) as H5.
  destruct (cli_report_estimation est) as [u' | e]; simpl in H5; [intros [=] |].
  intros [= -> _]. discriminate H5.
Qed.

Lemma main_run (argv : list string) (spec_file k : string) (t : Trace) :
  argv !! 1%nat = Some spec_file → cli_api_key argv = Some k → k ≠ "" →
  main argv t =
    match cli_body spec_file k t with
    | (Ok _, t') => (0, t')
    | (Raised (SystemExit code), t') => (code, t')
    | (Raised _, t') => (1, t')
    end.
Proof.
  intros H1 Hk Hne. unfold main.
  apply lookup_lt_Some in H1 as Hlen.
  destruct (Nat.ltb_spec (length argv) 2); [lia |].
  rewrite Hk, H1. simpl.
  destruct (String.eqb_spec k ""); [contradiction | reflexivity].
Qed.


End CommandLine.


(** * Further properties of the client *)

(** ** The request helper *)

Lemma rstrip_slash_app_slash (s : string) : rstrip_slash (s ++ "/") = rstrip_slash s.
Proof.
  induction s as [| c s IH]; [reflexivity |].
  simpl. rewrite IH. reflexivity.
Qed.

Lemma rstrip_slash_idempotent (s : string) : rstrip_slash (rstrip_slash s) = rstrip_slash s.
Proof.
  induction s as [| c s IH]; [reflexivity |].
  simpl. destruct (rstrip_slash s) as [| c' r] eqn:E.
  - destruct (Ascii.eqb c "/") eqn:Ec; simpl; [reflexivity |].
    rewrite Ec. reflexivity.
  - simpl. simpl in IH. rewrite IH. reflexivity.
Qed.

Section RequestHelper.
Context `{W : World}.

(** X2.  When the transport gives up on a connection failure,
    [_make_request] raises [ValueError] with the message
    ["Request failed: "] followed by the failure's own message. *)
Theorem transport_failure_surfaces (self : OpenAPIAgentsClient) (method endpoint : string)
    (json : option pyval) (t : Trace) (msg : string) :
  (transport_run self (request_of self method endpoint json) t).2 = Failed msg →
  (_make_request self method endpoint json t).1 =
    Raised (ValueError ("Request failed: " ++ msg)).
Proof. intros H. rewrite make_request_run. simpl. rewrite H. reflexivity. Qed.

(** X3.  A response whose status is outside 400..599 and whose body
    decodes is returned as the decoded body, whatever that JSON value
    is. *)
Theorem success_returns_body (self : OpenAPIAgentsClient) (method endpoint : string)
    (json : option pyval) (t : Trace) (r : Response) (v : pyval) :
  (transport_run self (request_of self method endpoint json) t).2 = Replied r →
  status_code r < 400 ∨ 600 ≤ status_code r →
  json_body r = inr v →
  (_make_request self method endpoint json t).1 = Ok v.
Proof.
  intros H Hst Hj. rewrite make_request_run. simpl. rewrite H. unfold outcome_result.
  replace ((400 <=? status_code r) && (status_code r <? 600)) with false.
  - rewrite Hj. reflexivity.
  - symmetry. apply andb_false_iff. destruct Hst; [left | right]; lia.
Qed.

(** X4.  For an error status that is neither 401 nor one of the
    retried 429, 500, 502, 503 and 504, a body that decodes to a JSON
    value that is not an object does not give a [ValueError]: the
    [AttributeError] of [error_data.get] escapes. *)
Theorem non_object_error_body (self : OpenAPIAgentsClient) (method endpoint : string)
    (json : option pyval) (t : Trace) (r : Response) (v : pyval) :
  (transport_run self (request_of self method endpoint json) t).2 = Replied r →
  400 ≤ status_code r < 600 →
  status_code r ≠ 401 → status_code r ∉ [429; 500; 502; 503; 504] →
  json_body r = inr v →
  type_name v ≠ "dict" →
  (_make_request self method endpoint json t).1 =
    Raised (AttributeError (type_name v) "get").
Proof.
  intros H Hst H401 Hlist Hj Hv. rewrite make_request_run. simpl. rewrite H.
  rewrite (outcome_result_error _ Hst).
  assert (H429 : status_code r ≠ 429).
  { intros E. apply Hlist. rewrite E. repeat constructor. }
  rewrite (handle_http_error_other _ _ (proj1 Hst) H401 H429), Hj.
  destruct v; try reflexivity. destruct Hv. reflexivity.
Qed.

(** X5.  Slashes at the joint do not matter: a trailing slash on the
    base URL given to the constructor and a leading slash on the
    endpoint are both dropped, so the same call is made. *)
Theorem slashes_normalised (api_key base : string) (tmo max_retries : Z)
    (self : OpenAPIAgentsClient) (method endpoint : string) (json : option pyval)
    (t : Trace) :
  __init__ api_key (base ++ "/") tmo max_retries = __init__ api_key base tmo max_retries
  ∧ base_url (__init__ api_key (base_url (__init__ api_key base tmo max_retries))
                tmo max_retries)
    = base_url (__init__ api_key base tmo max_retries)
  ∧ _make_request self method ("/" ++ endpoint) json t
    = _make_request self method endpoint json t.
Proof.
  split; [| split].
  - unfold __init__. rewrite rstrip_slash_app_slash. reflexivity.
  - simpl. apply rstrip_slash_idempotent.
  - reflexivity.
Qed.

End RequestHelper.

Lemma transport_failure_surfaces_witness :
  (@_make_request unreachable_world demo_client "GET" "/health" None []).1 =
    Raised (ValueError ("Request failed: " ++ "connection refused")).
Proof.
  apply (@transport_failure_surfaces unreachable_world demo_client "GET" "/health" None []).
  reflexivity.
Defined.

Lemma success_returns_body_witness :
  (@_make_request (world_replying null_body) demo_client "GET" "/health" None []).1 =
    Ok PNone.
Proof.
  apply (@success_returns_body (world_replying null_body) demo_client "GET" "/health"
           None [] null_body).
  - reflexivity.
  - left. simpl. lia.
  - reflexivity.
Defined.

Lemma non_object_error_body_witness :
  (@_make_request (world_replying json_string_body) demo_client "GET" "/health" None []).1 =
    Raised (AttributeError (type_name (PStr "no such endpoint")) "get").
Proof.
  apply (@non_object_error_body (world_replying json_string_body) demo_client "GET"
           "/health" None [] json_string_body).
  - reflexivity.
  - simpl. lia.
  - simpl. lia.
  - simpl. intros Hin. rewrite !elem_of_cons, elem_of_nil in Hin. lia.
  - reflexivity.
  - simpl. intros H. discriminate H.
Defined.

(** ** The operations *)

Section Operations.
Context `{W : World}.

Lemma make_request_ok (self : OpenAPIAgentsClient) (method endpoint : string)
    (json : option pyval) (t : Trace) (r : Response) (v : pyval) :
  (transport_run self (request_of self method endpoint json) t).2 = Replied r →
  status_code r < 400 ∨ 600 ≤ status_code r →
  json_body r = inr v →
  _make_request self method endpoint json t =
    (Ok v, (t ++ [(request_of self method endpoint json,
                   (transport_run self (request_of self method endpoint json) t).1)])%list).
Proof.
  intros H Hst Hj. rewrite make_request_run. rewrite H. unfold outcome_result.
  replace ((400 <=? status_code r) && (status_code r <? 600)) with false.
  - rewrite Hj. reflexivity.
  - symmetry. apply andb_false_iff. destruct Hst; [left | right]; lia.
Qed.

(** X6.  [health_check], [list_frameworks] and [list_protocols] each make
    one GET call without a body.  On a successful response that is a
    mapping, [health_check] returns the mapping itself, while the two
    listings return its [frameworks] (resp. [protocols]) entry and raise
    [KeyError] when the mapping has no such entry. *)
Theorem listing_operations (self : OpenAPIAgentsClient) (t : Trace) (r : Response)
    (d : gmap string pyval) :
  status_code r < 400 ∨ 600 ≤ status_code r →
  json_body r = inr (PDict d) →
  ((transport_run self (request_of self "GET" "/health" None) t).2 = Replied r →
     ∃ n : nat,
       health_check self t =
         (Ok (PDict d),
          (t ++ [({| req_method := "GET";
                     req_url := urljoin (base_url self ++ "/") "health";
                     req_timeout := timeout self;
                     req_json := None |}, n)])%list))
  ∧ ((transport_run self (request_of self "GET" "/frameworks" None) t).2 = Replied r →
     ∃ n : nat,
       list_frameworks self t =
         (match d !! "frameworks" with
          | Some v => Ok v
          | None => Raised (KeyError "frameworks")
          end,
          (t ++ [({| req_method := "GET";
                     req_url := urljoin (base_url self ++ "/") "frameworks";
                     req_timeout := timeout self;
                     req_json := None |}, n)])%list))
  ∧ ((transport_run self (request_of self "GET" "/protocols" None) t).2 = Replied r →
     ∃ n : nat,
       list_protocols self t =
         (match d !! "protocols" with
          | Some v => Ok v
          | None => Raised (KeyError "protocols")
          end,
          (t ++ [({| req_method := "GET";
                     req_url := urljoin (base_url self ++ "/") "protocols";
                     req_timeout := timeout self;
                     req_json := None |}, n)])%list)).
Proof.
  intros Hst Hj. split; [| split]; intros Hrun; eexists.
  - unfold health_check. rewrite (make_request_ok _ _ _ _ _ _ _ Hrun Hst Hj). reflexivity.
  - unfold list_frameworks, mbind, M_bind.
    rewrite (make_request_ok _ _ _ _ _ _ _ Hrun Hst Hj).
    unfold lift. simpl. destruct (d !! "frameworks"); reflexivity.
  - unfold list_protocols, mbind, M_bind.
    rewrite (make_request_ok _ _ _ _ _ _ _ Hrun Hst Hj).
    unfold lift. simpl. destruct (d !! "protocols"); reflexivity.
Qed.

(** X7.  A string input that [yaml.safe_load] rejects makes each of the
    five methods that take a specification or configuration raise the
    decoder's error before any request is sent. *)
Theorem yaml_failure_sends_nothing (self : OpenAPIAgentsClient) (s : string)
    (extra m rpd cr : pyval) (t : Trace) :
  yaml_safe_load s = None →
  validate_openapi self (PStr s) t = (Raised YAMLError, t)
  ∧ validate_agent_config self (PStr s) t = (Raised YAMLError, t)
  ∧ validate_compliance self (PStr s) extra t = (Raised YAMLError, t)
  ∧ validate_protocols self (PStr s) extra t = (Raised YAMLError, t)
  ∧ estimate_tokens self (PStr s) m rpd cr t = (Raised YAMLError, t).
Proof.
  intros H.
  unfold validate_openapi, validate_agent_config, validate_compliance,
    validate_protocols, estimate_tokens, mbind, M_bind. simpl.
  rewrite H. simpl. auto 10.
Qed.

(** X8.  When the response of [/validate/openapi] is a mapping,
    [validate_openapi] returns a result exactly when the mapping has all
    of [valid], [certification_level], [passed], [warnings] and [errors];
    otherwise it raises [KeyError] for the first of them that is
    missing.  A response that is not a mapping raises [TypeError].  In
    both cases the request has been made. *)
Theorem validation_missing_key (self : OpenAPIAgentsClient) (spec p r : pyval)
    (t t' : Trace) :
  resolved spec p →
  _make_request self "POST" "/validate/openapi"
    (Some (PDict {[ "specification" := p ]})) t = (Ok r, t') →
  (∀ (d : gmap string pyval) (k : string),
     r = PDict d →
     first_missing d ["valid"; "certification_level"; "passed"; "warnings"; "errors"]
       = Some k →
     validate_openapi self spec t = (Raised (KeyError k), t'))
  ∧ (∀ d : gmap string pyval,
     r = PDict d →
     first_missing d ["valid"; "certification_level"; "passed"; "warnings"; "errors"]
       = None →
     ∃ res : ValidationResult, validate_openapi self spec t = (Ok res, t'))
  ∧ (type_name r ≠ "dict" → validate_openapi self spec t = (Raised TypeError, t')).
Proof.
  intros Hp Hreq.
  assert (Hrun : validate_openapi self spec t =
            (v ← py_getitem r "valid";
             c ← py_getitem r "certification_level";
             ps ← py_getitem r "passed";
             w ← py_getitem r "warnings";
             e ← py_getitem r "errors";
             mret {| valid := v; certification_level := c; passed := ps;
                     warnings := w; errors := e |}, t')).
  { unfold validate_openapi, mbind at 1 2, M_bind.
    rewrite (load_if_str_resolved _ _ _ Hp), Hreq. reflexivity. }
  rewrite Hrun. clear Hrun Hreq. split; [| split].
  - intros d k -> Hk. unfold first_missing in Hk. simpl in Hk. simpl.
    destruct (d !! "valid"); simpl; [| congruence].
    destruct (d !! "certification_level"); simpl; [| congruence].
    destruct (d !! "passed"); simpl; [| congruence].
    destruct (d !! "warnings"); simpl; [| congruence].
    destruct (d !! "errors"); simpl; [discriminate Hk | congruence].
  - intros d -> Hk. unfold first_missing in Hk. simpl in Hk. simpl.
    destruct (d !! "valid"); simpl; [| discriminate Hk].
    destruct (d !! "certification_level"); simpl; [| discriminate Hk].
    destruct (d !! "passed"); simpl; [| discriminate Hk].
    destruct (d !! "warnings"); simpl; [| discriminate Hk].
    destruct (d !! "errors"); simpl; [| discriminate Hk].
    eexists. reflexivity.
  - intros Hr. destruct r; try reflexivity. destruct Hr. reflexivity.
Qed.

(** X9.  From a successful response [r], [validate_compliance] builds
    the record from [r['valid']], [r['authorization_readiness']],
    [r['framework_results']] and the three totals of the nested mapping
    [r['summary']]; a mapping without [summary] (but with the three
    fields before it) raises [KeyError]. *)
Theorem compliance_result_fields (self : OpenAPIAgentsClient)
    (config frameworks p r : pyval) (t t' : Trace) :
  resolved config p →
  _make_request self "POST" "/validate/compliance"
    (Some (PDict (optional_payload p "frameworks" frameworks))) t = (Ok r, t') →
  (∀ v a f s tp tw te : pyval,
     py_getitem r "valid" = Ok v →
     py_getitem r "authorization_readiness" = Ok a →
     py_getitem r "framework_results" = Ok f →
     py_getitem r "summary" = Ok s →
     py_getitem s "total_passed" = Ok tp →
     py_getitem s "total_warnings" = Ok tw →
     py_getitem s "total_errors" = Ok te →
     validate_compliance self config frameworks t =
       (Ok {| cr_valid := v; authorization_readiness := a; framework_results := f;
              total_passed := tp; total_warnings := tw; total_errors := te |}, t'))
  ∧ (∀ (d : gmap string pyval) (v a f : pyval),
     r = PDict d →
     d !! "valid" = Some v → d !! "authorization_readiness" = Some a →
     d !! "framework_results" = Some f → d !! "summary" = None →
     validate_compliance self config frameworks t = (Raised (KeyError "summary"), t')).
Proof.
  intros Hp Hreq. split.
  - intros v a f s tp tw te Hv Ha Hf Hs Htp Htw Hte.
    unfold validate_compliance, mbind at 1 2, M_bind.
    rewrite (load_if_str_resolved _ _ _ Hp), Hreq.
    unfold lift. rewrite Hv, Ha, Hf, Hs. simpl. rewrite Htp, Htw, Hte. reflexivity.
  - intros d v a f -> Hv Ha Hf Hs.
    unfold validate_compliance, mbind at 1 2, M_bind.
    rewrite (load_if_str_resolved _ _ _ Hp), Hreq.
    unfold lift. simpl. rewrite Hv, Ha, Hf, Hs. reflexivity.
Qed.

(** X10.  A non-empty list given for [frameworks] (resp. [protocols]) is
    sent along: the body is then [{"configuration": ..., "frameworks":
    ...}]; and [validate_protocols] returns whatever [_make_request]
    returns, without a typed wrapper. *)
Theorem nonempty_list_is_sent (self : OpenAPIAgentsClient) (config p extra : pyval)
    (t : Trace) :
  resolved config p →
  py_truthy extra = true →
  (∃ n : nat,
     (validate_compliance self config extra t).2 =
       (t ++ [({| req_method := "POST";
                  req_url := urljoin (base_url self ++ "/") "validate/compliance";
                  req_timeout := timeout self;
                  req_json := Some (PDict (<[ "frameworks" := extra ]>
                                            {[ "configuration" := p ]})) |}, n)])%list)
  ∧ validate_protocols self config extra t =
      _make_request self "POST" "/validate/protocols"
        (Some (PDict (<[ "protocols" := extra ]> {[ "configuration" := p ]}))) t
  ∧ (<[ "frameworks" := extra ]> ({[ "configuration" := p ]} : gmap string pyval))
      !! "frameworks" = Some extra
  ∧ (<[ "frameworks" := extra ]> ({[ "configuration" := p ]} : gmap string pyval))
      !! "configuration" = Some p.
Proof.
  intros Hp He. split; [| split; [| split]].
  - eexists. unfold validate_compliance, mbind at 1 2, M_bind.
    rewrite (load_if_str_resolved _ _ _ Hp). rewrite make_request_run.
    unfold optional_payload. rewrite He.
    destruct (outcome_result _); reflexivity.
  - unfold validate_protocols, mbind, M_bind.
    rewrite (load_if_str_resolved _ _ _ Hp).
    unfold optional_payload. rewrite He. reflexivity.
  - apply lookup_insert_eq.
  - rewrite lookup_insert_ne by discriminate. apply lookup_singleton_eq.
Qed.

End Operations.

Lemma listing_operations_witness :
  (∃ n : nat,
     @health_check (world_replying frameworks_response) demo_client [] =
       (Ok (PDict {[ "frameworks" := PList [PStr "iso-42001"; PStr "nist-ai-rmf"] ]}),
        ([] ++ [({| req_method := "GET";
                    req_url := @urljoin (world_replying frameworks_response)
                                 (base_url demo_client ++ "/") "health";
                    req_timeout := timeout demo_client;
                    req_json := None |}, n)])%list))
  ∧ (∃ n : nat,
     @list_frameworks (world_replying frameworks_response) demo_client [] =
       (Ok (PList [PStr "iso-42001"; PStr "nist-ai-rmf"]),
        ([] ++ [({| req_method := "GET";
                    req_url := @urljoin (world_replying frameworks_response)
                                 (base_url demo_client ++ "/") "frameworks";
                    req_timeout := timeout demo_client;
                    req_json := None |}, n)])%list))
  ∧ (∃ n : nat,
     @list_protocols (world_replying frameworks_response) demo_client [] =
       (Raised (KeyError "protocols"),
        ([] ++ [({| req_method := "GET";
                    req_url := @urljoin (world_replying frameworks_response)
                                 (base_url demo_client ++ "/") "protocols";
                    req_timeout := timeout demo_client;
                    req_json := None |}, n)])%list)).
Proof.
  destruct (@listing_operations (world_replying frameworks_response) demo_client []
              frameworks_response
              {[ "frameworks" := PList [PStr "iso-42001"; PStr "nist-ai-rmf"] ]})
    as (H1 & H2 & H3).
  - left. simpl. lia.
  - reflexivity.
  - split; [| split].
    + apply H1. reflexivity.
    + apply H2. reflexivity.
    + apply H3. reflexivity.
Defined.

Lemma yaml_failure_sends_nothing_witness :
  @validate_openapi canned_world demo_client (PStr "{{") [] = (Raised YAMLError, [])
  ∧ @validate_agent_config canned_world demo_client (PStr "{{") [] = (Raised YAMLError, [])
  ∧ @validate_compliance canned_world demo_client (PStr "{{") PNone [] =
      (Raised YAMLError, [])
  ∧ @validate_protocols canned_world demo_client (PStr "{{") PNone [] =
      (Raised YAMLError, [])
  ∧ @estimate_tokens canned_world demo_client (PStr "{{") default_model
      default_requests_per_day default_compression_ratio [] = (Raised YAMLError, []).
Proof.
  apply (@yaml_failure_sends_nothing canned_world demo_client "{{"). reflexivity.
Defined.

Lemma validation_missing_key_witness :
  @validate_openapi (world_replying incomplete_response) demo_client (PDict ∅) [] =
    (Raised (KeyError "passed"),
     [(demo_post "validate/openapi" (PDict {[ "specification" := PDict ∅ ]}), 1%nat)]).
Proof.
  destruct (@validation_missing_key (world_replying incomplete_response) demo_client
              (PDict ∅) (PDict ∅)
              (PDict (list_to_map
                 [("valid", PBool true); ("certification_level", PStr "gold")]))
              []
              [(demo_post "validate/openapi" (PDict {[ "specification" := PDict ∅ ]}),
                1%nat)])
    as (H & _ & _); [reflexivity | reflexivity |].
  apply (H (list_to_map [("valid", PBool true); ("certification_level", PStr "gold")]));
    reflexivity.
Defined.

Lemma compliance_result_fields_witness :
  @validate_compliance compliance_world demo_client (PDict ∅) PNone [] =
    (Ok {| cr_valid := PBool true; authorization_readiness := PStr "ready";
           framework_results := PDict ∅;
           total_passed := PInt 7; total_warnings := PInt 2; total_errors := PInt 0 |},
     [(demo_post "validate/compliance" (PDict {[ "configuration" := PDict ∅ ]}), 1%nat)]).
Proof.
  destruct (@compliance_result_fields compliance_world demo_client (PDict ∅) PNone
              (PDict ∅) compliance_response []
              [(demo_post "validate/compliance" (PDict {[ "configuration" := PDict ∅ ]}),
                1%nat)])
    as (H & _); [reflexivity | reflexivity |].
  apply (H _ _ _ compliance_summary); reflexivity.
Defined.

Lemma nonempty_list_is_sent_witness :
  (∃ n : nat,
     (@validate_compliance compliance_world demo_client (PDict ∅)
        (PList [PStr "hipaa"]) []).2 =
       ([] ++ [({| req_method := "POST";
                   req_url := @urljoin compliance_world (base_url demo_client ++ "/")
                                "validate/compliance";
                   req_timeout := timeout demo_client;
                   req_json := Some (PDict (<[ "frameworks" := PList [PStr "hipaa"] ]>
                                             {[ "configuration" := PDict ∅ ]})) |}, n)])%list).
Proof.
  destruct (@nonempty_list_is_sent compliance_world demo_client (PDict ∅) (PDict ∅)
              (PList [PStr "hipaa"]) []) as (H & _); [reflexivity | reflexivity |].
  exact H.
Defined.

(** ** The composition and its options *)

Section Options.
Context `{W : World}.

Lemma bind_estimation_options_known (opts : gmap string pyval) :
  (∀ k : string, is_Some (opts !! k) → k ∈ estimate_keywords) →
  bind_estimation_options opts =
    Ok (default default_model (opts !! "model"),
        default default_requests_per_day (opts !! "requests_per_day"),
        default default_compression_ratio (opts !! "compression_ratio")).
Proof.
  intros Hk. unfold bind_estimation_options.
  replace (forallb _ _) with true; [reflexivity |].
  symmetry. apply forallb_forall. intros k Hin.
  apply bool_decide_eq_true_2, Hk.
  apply list_elem_of_In, list_elem_of_fmap in Hin as ([k' v] & -> & Hin).
  apply elem_of_map_to_list in Hin. simpl. eauto.
Qed.

Lemma bind_estimation_options_unknown (opts : gmap string pyval) (k : string) (x : pyval) :
  opts !! k = Some x → k ∉ estimate_keywords →
  bind_estimation_options opts = Raised TypeError.
Proof.
  intros Hk Hn.
  destruct (bind_estimation_options opts) as [y | e] eqn:E.
  - rewrite (bind_estimation_options_keywords opts k y E Hn) in Hk. discriminate Hk.
  - unfold bind_estimation_options in E. destruct (forallb _ _); congruence.
Qed.

(** X11.  How [validate_and_estimate] fails: when the validation call
    raises, its error is passed on and no estimation request is made; an
    option that [estimate_tokens] does not know is only noticed after
    the validation request has been sent and raises [TypeError] without
    an estimation request; an error of the estimation call is passed on
    after both requests. *)
Theorem validate_and_estimate_failures (self : OpenAPIAgentsClient) (spec : pyval)
    (opts : gmap string pyval) (t : Trace) :
  opts !! "specification" = None → opts !! "self" = None →
  (∀ (e : exn) (t1 : Trace),
     validate_openapi self spec t = (Raised e, t1) →
     validate_and_estimate self spec opts t = (Raised e, t1))
  ∧ (∀ (v : ValidationResult) (t1 : Trace) (k : string) (x : pyval),
     validate_openapi self spec t = (Ok v, t1) →
     opts !! k = Some x → k ∉ estimate_keywords →
     validate_and_estimate self spec opts t = (Raised TypeError, t1))
  ∧ (∀ (v : ValidationResult) (t1 t2 : Trace) (m r c : pyval) (e : exn),
     validate_openapi self spec t = (Ok v, t1) →
     bind_estimation_options opts = Ok (m, r, c) →
     estimate_tokens self spec m r c t1 = (Raised e, t2) →
     validate_and_estimate self spec opts t = (Raised e, t2)).
Proof.
  intros Hs Hself. unfold validate_and_estimate. rewrite Hs, Hself.
  replace (bool_decide (is_Some (None : option pyval))) with false by reflexivity.
  simpl. split; [| split].
  - intros e t1 E1. unfold mbind at 1, M_bind. rewrite E1. reflexivity.
  - intros v t1 k x E1 Hk Hn. unfold mbind at 1, M_bind. rewrite E1.
    unfold mbind at 1, M_bind. unfold lift at 1.
    rewrite (bind_estimation_options_unknown _ _ _ Hk Hn). reflexivity.
  - intros v t1 t2 m r c e E1 E2 E3. unfold mbind at 1, M_bind. rewrite E1.
    unfold mbind at 1, M_bind. unfold lift at 1. rewrite E2.
    unfold mbind at 1, M_bind. rewrite E3. reflexivity.
Qed.

(** X12.  When every option is one of [model], [requests_per_day] and
    [compression_ratio], [validate_and_estimate] runs [validate_openapi]
    and then [estimate_tokens] with each option given, and with the
    default ["gpt-4-turbo"], [1000] or [0.7] for each option left out. *)
Theorem estimation_options_defaults (self : OpenAPIAgentsClient) (spec : pyval)
    (opts : gmap string pyval) (t : Trace) :
  (∀ k : string, is_Some (opts !! k) → k ∈ estimate_keywords) →
  validate_and_estimate self spec opts t =
    (validation ← validate_openapi self spec;
     estimation ← estimate_tokens self spec
                    (default (PStr "gpt-4-turbo") (opts !! "model"))
                    (default (PInt 1000) (opts !! "requests_per_day"))
                    (default (PFloat (S754_finite false 6305039478318694 (-53)))
                       (opts !! "compression_ratio"));
     mret (validation, estimation)) t.
Proof.
  intros Hk. unfold validate_and_estimate.
  rewrite (reserved_keywords_free opts _ (bind_estimation_options_known opts Hk)).
  unfold mbind at 1 4, M_bind.
  destruct (validate_openapi self spec t) as [[v | e] t1]; [| reflexivity].
  unfold mbind at 1, M_bind. unfold lift at 1.
  rewrite (bind_estimation_options_known opts Hk). reflexivity.
Qed.

End Options.

Lemma validate_and_estimate_failures_witness :
  @validate_and_estimate full_world demo_client (PDict ∅) {[ "modle" := PStr "x" ]} [] =
    (Raised TypeError,
     [(demo_post "validate/openapi" (PDict {[ "specification" := PDict ∅ ]}), 1%nat)]).
Proof.
  destruct (@validate_and_estimate_failures full_world demo_client (PDict ∅)
              {[ "modle" := PStr "x" ]} []) as (_ & H & _);
    [reflexivity | reflexivity |].
  apply (H {| valid := PBool true; certification_level := PStr "gold";
              passed := PList [PStr "a"]; warnings := PList [];
              errors := PList [] |} _ "modle" (PStr "x")); try reflexivity.
  intros Hin. apply (bool_decide_eq_true_2 _) in Hin. discriminate Hin.
Defined.

Lemma estimation_options_defaults_witness :
  @validate_and_estimate full_world demo_client (PDict ∅) ∅ [] =
    (@validate_openapi full_world demo_client (PDict ∅) ≫= λ validation,
     @estimate_tokens full_world demo_client (PDict ∅)
       (default (PStr "gpt-4-turbo") ((∅ : gmap string pyval) !! "model"))
       (default (PInt 1000) ((∅ : gmap string pyval) !! "requests_per_day"))
       (default (PFloat (S754_finite false 6305039478318694 (-53)))
          ((∅ : gmap string pyval) !! "compression_ratio")) ≫= λ estimation,
     mret (validation, estimation)) [].
Proof.
  apply (@estimation_options_defaults full_world demo_client (PDict ∅) ∅ []).
  intros k [x Hx]. rewrite lookup_empty in Hx. discriminate Hx.
Defined.

(** ** The command line, continued *)

Section CommandLineRuns.
Context `{W : World}.

Lemma validate_openapi_trace_le (self : OpenAPIAgentsClient) (spec : pyval) (t : Trace) :
  ∃ extra : Trace,
    (validate_openapi self spec t).2 = (t ++ extra)%list ∧ (length extra ≤ 1)%nat.
Proof.
  destruct (load_if_str_cases spec t) as [(p & Hp & _) | (Hn & _)].
  - eexists. split; [apply (validate_openapi_trace self spec p t Hp) | simpl; lia].
  - exists []. rewrite (validate_openapi_unresolved self spec t Hn).
    simpl. rewrite app_nil_r. split; [reflexivity | lia].
Qed.

Lemma estimate_tokens_trace_le (self : OpenAPIAgentsClient) (spec m r c : pyval)
    (t : Trace) :
  ∃ extra : Trace,
    (estimate_tokens self spec m r c t).2 = (t ++ extra)%list ∧ (length extra ≤ 1)%nat.
Proof.
  destruct (load_if_str_cases spec t) as [(p & Hp & _) | (Hn & E)].
  - eexists. split; [apply (estimate_tokens_trace self spec p m r c t Hp) | simpl; lia].
  - exists []. unfold estimate_tokens, mbind at 1, M_bind. rewrite E.
    simpl. rewrite app_nil_r. split; [reflexivity | lia].
Qed.

Lemma cli_body_trace_le (spec_file api_key : string) (t : Trace) :
  ∃ extra : Trace,
    (cli_body spec_file api_key t).2 = (t ++ extra)%list ∧ (length extra ≤ 2)%nat.
Proof.
  unfold cli_body. unfold mbind at 1, M_bind. unfold lift at 1.
  destruct (load_specification spec_file) as [spec | e].
  2:{ exists []. simpl. rewrite app_nil_r. split; [reflexivity | lia]. }
  unfold mbind at 1, M_bind.
  destruct (validate_openapi_trace_le
              (__init__ api_key default_base_url default_timeout default_max_retries)
              spec t) as (x1 & T1 & L1).
  destruct (validate_openapi _ spec t) as [[v | e] t1]; simpl in T1; subst t1.
  2:{ exists x1. split; [reflexivity | lia]. }
  unfold mbind at 1, M_bind. unfold lift at 1.
  destruct (cli_report_validation v) as [u | e].
  2:{ exists x1. split; [reflexivity | lia]. }
  unfold mbind at 1, M_bind.
  destruct (estimate_tokens_trace_le
              (__init__ api_key default_base_url default_timeout default_max_retries)
              spec default_model default_requests_per_day default_compression_ratio
              (t ++ x1)%list) as (x2 & T2 & L2).
  destruct (estimate_tokens _ spec _ _ _ _) as [[est | e] t2]; simpl in T2; subst t2.
  2:{ exists (x1 ++ x2)%list. rewrite app_assoc.
      split; [reflexivity | rewrite length_app; lia]. }
  unfold lift. exists (x1 ++ x2)%list. rewrite app_assoc.
  split; [destruct (cli_report_estimation est); reflexivity | rewrite length_app; lia].
Qed.

(** X13.  Without a specification file on the command line the script
    exits with code 1; an empty second argument counts as a missing key
    even when the environment holds one.  In both cases no request is
    sent. *)
Theorem cli_usage_and_empty_key (argv : list string) (t : Trace) :
  ((length argv < 2)%nat → main argv t = (1, t))
  ∧ (argv !! 2%nat = Some "" → main argv t = (1, t)).
Proof.
  split.
  - intros Hlen. unfold main.
    destruct (Nat.ltb_spec (length argv) 2); [reflexivity | lia].
  - intros H2. unfold main, cli_api_key.
    apply lookup_lt_Some in H2 as Hlen.
    destruct (Nat.ltb_spec (length argv) 2); [reflexivity |].
    destruct (Nat.ltb_spec 2 (length argv)); [| lia].
    rewrite H2. reflexivity.
Qed.

(** X14.  The script never makes more than two calls.  When it exits
    with code 0 it has loaded the file, made exactly two calls (the POST
    to [/validate/openapi] and then the POST to [/estimate/tokens] with
    the default options, both for the loaded specification) and the
    validation result was truthy. *)
Theorem cli_requests (argv : list string) (t : Trace) :
  (∃ extra : Trace, (main argv t).2 = (t ++ extra)%list ∧ (length extra ≤ 2)%nat)
  ∧ ((main argv t).1 = 0 →
     ∃ (spec_file k : string) (spec p : pyval) (v : ValidationResult) (n1 n2 : nat),
       argv !! 1%nat = Some spec_file
       ∧ cli_api_key argv = Some k
       ∧ load_specification spec_file = Ok spec
       ∧ resolved spec p
       ∧ validate_openapi
           (__init__ k default_base_url default_timeout default_max_retries) spec t =
           (Ok v, (t ++ [(request_of
                            (__init__ k default_base_url default_timeout
                               default_max_retries)
                            "POST" "/validate/openapi"
                            (Some (PDict {[ "specification" := p ]})), n1)])%list)
       ∧ py_truthy (valid v) = true
       ∧ (main argv t).2 =
           (t ++ [(request_of
                     (__init__ k default_base_url default_timeout default_max_retries)
                     "POST" "/validate/openapi"
                     (Some (PDict {[ "specification" := p ]})), n1);
                  (request_of
                     (__init__ k default_base_url default_timeout default_max_retries)
                     "POST" "/estimate/tokens"
                     (Some (estimate_body p default_model default_requests_per_day
                              default_compression_ratio)), n2)])%list).
Proof.
  split.
  - unfold main.
    destruct (length argv <? 2)%nat.
    { exists []. simpl. rewrite app_nil_r. split; [reflexivity | lia]. }
    destruct (key_missing (cli_api_key argv)).
    { exists []. simpl. rewrite app_nil_r. split; [reflexivity | lia]. }
    destruct (cli_body_trace_le (default "" (argv !! 1%nat))
                (default "" (cli_api_key argv)) t) as (extra & T & L).
    exists extra. split; [| exact L].
    destruct (cli_body _ _ t) as [[u | e] t']; simpl in T; subst t'; [reflexivity |].
    destruct e; reflexivity.
  - unfold main.
    destruct (Nat.ltb_spec (length argv) 2) as [Hlen | Hlen]; [intros [=] |].
    destruct (argv !! 1%nat) as [spec_file |] eqn:H1.
    2:{ apply lookup_ge_None in H1. lia. }
    destruct (cli_api_key argv) as [k |] eqn:Hk; simpl; [| intros [=]].
    destruct (String.eqb k ""); [intros [=] |].
    destruct (cli_body spec_file k t) as [[u | e] t'] eqn:Hb.
    2:{ simpl. intros H0. exfalso.
        destruct e; try discriminate H0. simpl in H0.
        pose proof (cli_body_exit _ _ _ _ _ Hb). lia. }
    intros _. simpl.
    unfold cli_body in Hb. unfold mbind at 1, M_bind in Hb. unfold lift at 1 in Hb.
    destruct (load_specification spec_file) as [spec | e] eqn:Hload;
      [| discriminate Hb].
    unfold mbind at 1, M_bind in Hb.
    destruct (validate_openapi _ spec t) as [[v | e] t1] eqn:E1; [| discriminate Hb].
    unfold mbind at 1, M_bind in Hb. unfold lift at 1 in Hb.
    pose proof (cli_report_validation_cases v) as Hv.
    destruct (cli_report_validation v) as [u' | e]; [| discriminate Hb].
    unfold mbind at 1, M_bind in Hb.
    destruct (estimate_tokens _ spec _ _ _ t1) as [[est | e] t2] eqn:E3;
      [| discriminate Hb].
    unfold lift in Hb.
    destruct (cli_report_estimation est); [| discriminate Hb].
    inversion Hb; subst; clear Hb.
    destruct (load_if_str_cases spec t) as [(p & Hp & _) | (Hn & _)].
    2:{ rewrite (validate_openapi_unresolved _ spec t Hn) in E1. discriminate E1. }
    pose proof (f_equal snd E1) as T1.
    rewrite (validate_openapi_trace _ spec p t Hp) in T1. simpl in T1. subst t1.
    pose proof (f_equal snd E3) as T3.
    rewrite (estimate_tokens_trace _ spec p _ _ _ _ Hp) in T3. simpl in T3.
    subst.
    exists spec_file, k, spec, p, v. eexists. eexists.
    split; [reflexivity |]. split; [reflexivity |]. split; [exact Hload |].
    split; [exact Hp |]. split; [exact E1 |]. split; [exact Hv |].
    rewrite <- app_assoc. reflexivity.
Qed.

(** X15.  When the specification file cannot be opened or does not
    parse, the script exits with code 1 and no request is sent. *)
Theorem cli_load_failure (argv : list string) (spec_file k : string) (e : exn)
    (t : Trace) :
  argv !! 1%nat = Some spec_file → cli_api_key argv = Some k → k ≠ "" →
  load_specification spec_file = Raised e →
  main argv t = (1, t).
Proof.
  intros H1 Hk Hne Hload. rewrite (main_run _ _ _ _ H1 Hk Hne).
  unfold cli_body. unfold mbind at 1, M_bind. unfold lift at 1.
  pose proof (load_specification_no_exit spec_file) as Hx.
  rewrite Hload in *. simpl in Hx.
  destruct e; try reflexivity. discriminate Hx.
Qed.

End CommandLineRuns.

Lemma cli_usage_and_empty_key_witness :
  @main cli_world ["client.py"] [] = (1, [])
  ∧ @main cli_world ["client.py"; "openapi.yaml"; ""] [] = (1, []).
Proof.
  destruct (@cli_usage_and_empty_key cli_world ["client.py"] []) as (H1 & _).
  destruct (@cli_usage_and_empty_key cli_world ["client.py"; "openapi.yaml"; ""] [])
    as (_ & H2).
  split; [apply H1; simpl; lia | apply H2; reflexivity].
Defined.

Lemma cli_requests_witness :
  ∃ (spec_file k : string) (spec p : pyval) (v : ValidationResult) (n1 n2 : nat),
    ["client.py"; "openapi.yaml"] !! 1%nat = Some spec_file
    ∧ @cli_api_key cli_world ["client.py"; "openapi.yaml"] = Some k
    ∧ @load_specification cli_world spec_file = Ok spec
    ∧ @resolved cli_world spec p
    ∧ @validate_openapi cli_world
        (__init__ k default_base_url default_timeout default_max_retries) spec [] =
        (Ok v, ([] ++ [(@request_of cli_world
                          (__init__ k default_base_url default_timeout
                             default_max_retries)
                          "POST" "/validate/openapi"
                          (Some (PDict {[ "specification" := p ]})), n1)])%list)
    ∧ py_truthy (valid v) = true
    ∧ (@main cli_world ["client.py"; "openapi.yaml"] []).2 =
        ([] ++ [(@request_of cli_world
                   (__init__ k default_base_url default_timeout default_max_retries)
                   "POST" "/validate/openapi"
                   (Some (PDict {[ "specification" := p ]})), n1);
                (@request_of cli_world
                   (__init__ k default_base_url default_timeout default_max_retries)
                   "POST" "/estimate/tokens"
                   (Some (estimate_body p default_model default_requests_per_day
                            default_compression_ratio)), n2)])%list.
Proof.
  destruct (@cli_requests cli_world ["client.py"; "openapi.yaml"] []) as (_ & H).
  apply H. reflexivity.
Defined.

Lemma cli_load_failure_witness :
  @main broken_world ["client.py"; "broken.yaml"] [] = (1, [])
  ∧ @main broken_world ["client.py"; "absent.json"] [] = (1, []).
Proof.
  split.
  - apply (@cli_load_failure broken_world ["client.py"; "broken.yaml"] "broken.yaml"
             "from-env" YAMLError); try reflexivity.
    intros H. discriminate H.
  - apply (@cli_load_failure broken_world ["client.py"; "absent.json"] "absent.json"
             "from-env" OSError); try reflexivity.
    intros H. discriminate H.
Defined.

(** ** Malformed responses *)

Section Malformed.
Context `{W : World}.

(** X16.  When the response of [/estimate/tokens] has [total_tokens] and
    [compressed_tokens] but no [cost_projections], [estimate_tokens]
    raises [KeyError] for [cost_projections]; when that entry is not a
    mapping it raises [TypeError].  The request has been made in both
    cases. *)
Theorem estimation_without_cost_projections (self : OpenAPIAgentsClient)
    (spec p m rpd cr tt ct : pyval) (d : gmap string pyval) (t t' : Trace) :
  resolved spec p →
  _make_request self "POST" "/estimate/tokens" (Some (estimate_body p m rpd cr)) t =
    (Ok (PDict d), t') →
  d !! "total_tokens" = Some tt →
  d !! "compressed_tokens" = Some ct →
  (d !! "cost_projections" = None →
     estimate_tokens self spec m rpd cr t = (Raised (KeyError "cost_projections"), t'))
  ∧ (∀ cp : pyval,
     d !! "cost_projections" = Some cp → type_name cp ≠ "dict" →
     estimate_tokens self spec m rpd cr t = (Raised TypeError, t')).
Proof.
  intros Hp Hreq Htt Hct.
  assert (Hrun : ∀ res,
            (py_getitem (PDict d) "cost_projections" ≫= λ c, py_getitem c "model")
              = Raised res →
            estimate_tokens self spec m rpd cr t = (Raised res, t')).
  { intros res Hres. unfold estimate_tokens, mbind at 1 2, M_bind.
    rewrite (load_if_str_resolved _ _ _ Hp), Hreq.
    unfold lift. simpl. rewrite Htt, Hct. simpl. simpl in Hres. rewrite Hres.
    reflexivity. }
  split.
  - intros Hcp. apply Hrun. simpl. rewrite Hcp. reflexivity.
  - intros cp Hcp Hty. apply Hrun. simpl. rewrite Hcp. simpl.
    destruct cp; try reflexivity. destruct Hty. reflexivity.
Qed.

(** X17.  A validation result that is valid but whose
    [certification_level] is not a string makes the script exit with
    code 1 after the validation request and before any estimation
    request. *)
Theorem cli_level_not_a_string (argv : list string) (spec_file k : string)
    (spec : pyval) (v : ValidationResult) (t t1 : Trace) :
  argv !! 1%nat = Some spec_file → cli_api_key argv = Some k → k ≠ "" →
  load_specification spec_file = Ok spec →
  validate_openapi (__init__ k default_base_url default_timeout default_max_retries)
    spec t = (Ok v, t1) →
  py_truthy (valid v) = true →
  type_name (certification_level v) ≠ "str" →
  main argv t = (1, t1).
Proof.
  intros H1 Hk Hne Hload Hval Hvalid Hty.
  rewrite (main_run _ _ _ _ H1 Hk Hne).
  unfold cli_body. unfold mbind at 1, M_bind. unfold lift at 1. rewrite Hload.
  unfold mbind at 1, M_bind. rewrite Hval.
  unfold mbind at 1, M_bind. unfold lift at 1.
  unfold cli_report_validation. rewrite Hvalid.
  destruct (certification_level v); try reflexivity. destruct Hty. reflexivity.
Qed.

End Malformed.

Lemma estimation_without_cost_projections_witness :
  @estimate_tokens flat_estimation_world demo_client (PDict ∅) default_model
    default_requests_per_day default_compression_ratio [] =
    (Raised (KeyError "cost_projections"),
     [(demo_post "estimate/tokens"
         (estimate_body (PDict ∅) default_model default_requests_per_day
            default_compression_ratio), 1%nat)]).
Proof.
  destruct (@estimation_without_cost_projections flat_estimation_world demo_client
              (PDict ∅) (PDict ∅) default_model default_requests_per_day
              default_compression_ratio (PInt 1200) (PInt 840)
              (list_to_map
                 [("total_tokens", PInt 1200); ("compressed_tokens", PInt 840);
                  ("daily_cost", PInt 12)])
              []
              [(demo_post "estimate/tokens"
                  (estimate_body (PDict ∅) default_model default_requests_per_day
                     default_compression_ratio), 1%nat)])
    as (H & _); [reflexivity | reflexivity | reflexivity | reflexivity |].
  apply H. reflexivity.
Defined.

Lemma cli_level_not_a_string_witness :
  @main numeric_level_world ["client.py"; "openapi.yaml"] [] =
    (1, [(demo_post "validate/openapi" (PDict {[ "specification" := PDict ∅ ]}), 1%nat)]).
Proof.
  apply (@cli_level_not_a_string numeric_level_world ["client.py"; "openapi.yaml"]
           "openapi.yaml" "from-env" (PDict ∅)
           {| valid := PBool true; certification_level := PInt 3;
              passed := PList []; warnings := PList []; errors := PList [] |});
    try reflexivity.
  - intros H. discriminate H.
  - simpl. intros H. discriminate H.
Defined.

(** ** Retried statuses *)

Lemma urlopen_replied (r : Retry) (method : string) (server : nat → Outcome)
    (exhausted : Response → string) (budget attempt n : nat) (resp : Response) :
  urlopen r method server exhausted budget attempt = (n, Replied resp) →
  is_retry r method (status_code resp) = false.
Proof.
  revert attempt. induction budget as [| b IH]; intros attempt; simpl.
  - destruct (server attempt) as [resp' | msg]; [| intros [=]].
    destruct (is_retry r method (status_code resp')) eqn:E; intros [= _ <-]. exact E.
  - destruct (server attempt) as [resp' | msg]; [| apply IH].
    destruct (is_retry r method (status_code resp')) eqn:E; [apply IH |].
    intros [= _ <-]. exact E.
Qed.

Section RetriedStatuses.
Context `{W : World}.

(** X18.  A response that the transport hands back is never one that
    the policy retries.  So for GET and POST (and the other listed
    methods) a service that keeps answering 429, 500, 502, 503 or 504
    never reaches the status classification, the rate-limit branch
    included: after [1 + max_retries] attempts [_make_request] raises
    [ValueError] with ["Request failed: "] followed by the text of the
    transport's error. *)
Theorem retried_status_fails_request (api_key base : string) (tmo max_retries : Z)
    (method endpoint : string) (json : option pyval) (t : Trace) :
  let self := __init__ api_key base tmo max_retries in
  let req := request_of self method endpoint json in
  (∀ r : Response,
     (transport_run self req t).2 = Replied r →
     is_retry (adapter (session self)) method (status_code r) = false)
  ∧ (∀ r : Response,
     method ∈ ["HEAD"; "GET"; "PUT"; "DELETE"; "OPTIONS"; "TRACE"; "POST"] →
     status_code r ∈ [429; 500; 502; 503; 504] →
     (∀ n, wire t req n = Replied r) →
     _make_request self method endpoint json t =
       (Raised (ValueError ("Request failed: " ++ retry_error req r)),
        (t ++ [(req, (1 + Z.to_nat max_retries)%nat)])%list)).
Proof.
  intros self req. split.
  - intros r Hrun. unfold transport_run in Hrun.
    destruct (urlopen _ _ _ _ _ _) as [n out] eqn:E. simpl in Hrun. subst out.
    apply (urlopen_replied _ _ _ _ _ _ _ _ E).
  - intros r Hm Hs Hall. rewrite make_request_run. unfold transport_run. simpl.
    destruct (urlopen_all_retried (retry_strategy max_retries) method (wire t req)
                (retry_error req) (Z.to_nat max_retries) 0) as (resp & Hresp & Hu).
    + intros n. exists r. split; [apply Hall |].
      unfold is_retry. simpl. apply andb_true_iff.
      split; apply bool_decide_eq_true_2; assumption.
    + fold self. fold req. rewrite Hu. rewrite Hall in Hresp.
      injection Hresp as <-. reflexivity.
Qed.

End RetriedStatuses.

Lemma retried_status_fails_request_witness :
  @_make_request (world_replying rate_limited)
    (__init__ "secret" default_base_url default_timeout default_max_retries)
    "POST" "/validate/openapi" (Some (PDict {[ "specification" := PDict ∅ ]})) [] =
    (Raised (ValueError
       ("Request failed: " ++
        @retry_error (world_replying rate_limited)
          (demo_post "validate/openapi" (PDict {[ "specification" := PDict ∅ ]}))
          rate_limited)),
     ([] ++ [(demo_post "validate/openapi" (PDict {[ "specification" := PDict ∅ ]}),
              (1 + Z.to_nat default_max_retries)%nat)])%list).
Proof.
  destruct (@retried_status_fails_request (world_replying rate_limited) "secret"
              default_base_url default_timeout default_max_retries "POST"
              "/validate/openapi" (Some (PDict {[ "specification" := PDict ∅ ]})) [])
    as (_ & H).
  apply (H rate_limited).
  - repeat constructor.
  - repeat constructor.
  - intros n. reflexivity.
Defined.
